(** * Financial KPI dashboard: ratio, KPI, comparison and forecasting engine

    A shallow embedding of [src/data_loader.py], [src/financial_analyzer.py]
    and [src/forecasting.py].

    Numbers.  Every numeric cell of the pandas frame is an IEEE-754 binary64
    value (numpy's [float64]); it is embedded as Rocq's primitive [float],
    whose operations are the same binary64 operations, so division by zero
    yields an infinity or NaN and never raises, exactly as numpy does.
    A Python [int] literal that meets a float ([0], [1], [12], [100]) is
    embedded as the float of the same value.

    Library calls.  Three functions that belong to libraries and not to this
    repository are parameters of the development: libm's [pow] (reached
    through [**]), statsmodels' Holt-Winters fit, and Python's conversion of
    a float to text (reached through an f-string).

    Exceptions.  A function that can raise returns [result A = exn + A]. *)

From Stdlib Require Import Floats ZArith List Sorted Permutation String
  DecimalString Bool Lia.
Import ListNotations.

Set Warnings "-inexact-float".

#[local] Open Scope float_scope.

(** ** Exceptions *)

(** The exceptions the modelled code can raise.  [IndexError] is what
    [df.iloc[-1]] raises on a frame without rows ("single positional indexer
    is out-of-bounds"). *)
Inductive exn : Type :=
| IndexError
| ValueError.

Definition result (A : Type) : Type := (exn + A)%type.

Definition Ok {A : Type} (a : A) : result A := inr a.
Definition Raise {A : Type} (e : exn) : result A := inl e.

Definition bind {A B : Type} (r : result A) (k : A -> result B) : result B :=
  match r with
  | inl e => inl e
  | inr a => k a
  end.

Notation "x <- r ;; k" := (bind r (fun x => k))
  (at level 61, r at next level, right associativity).

(** ** numpy and pandas numerics *)

Module Np.

(** [len(...)] and loop indices turned into floats. *)
Definition of_nat (n : nat) : float :=
  PrimFloat.of_uint63 (Uint63.of_Z (Z.of_nat n)).

(** C's [rint] under round-to-nearest-even: below 2^52 in magnitude,
    adding and subtracting 2^52 rounds to an integer; every float of
    larger magnitude, an infinity and NaN are returned unchanged.  The
    sign of the argument is kept, also on a zero result. *)
Definition rint (x : float) : float :=
  let a := abs x in
  if a <? 0x1p52 then
    let r := (a + 0x1p52) - 0x1p52 in
    if get_sign x then - r else r
  else x.

(** [round(x, 2)] on a numpy float and [Series.round(2)]: numpy multiplies
    by [10**2], applies [rint] and divides by [10**2]. *)
Definition round_to (decimals : nat) (x : float) : float :=
  let f := of_nat (10 ^ decimals) in
  rint (x * f) / f.

Definition round2 : float -> float := round_to 2.
Definition round4 : float -> float := round_to 4.

(** pandas reductions skip missing values (NaN). *)
Definition notna (x : float) : bool := negb (is_nan x).

Definition dropna (xs : list float) : list float := filter notna xs.

(** [Series.sum()] and the ['sum'] aggregation: the non-missing values
    added up from 0, so a column of missing values sums to 0.  The values
    are added here from first to last; numpy and pandas choose their own
    order of additions, which gives the same float whenever the partial
    sums are exact. *)
Definition sum (xs : list float) : float :=
  fold_left add (dropna xs) 0.

(** [Series.mean()]: the sum of the non-missing values over their count,
    NaN when there is none. *)
Definition mean (xs : list float) : float :=
  match dropna xs with
  | [] => nan
  | _ :: _ => sum xs / of_nat (List.length (dropna xs))
  end.

(** The ['last'] aggregation: the last non-missing value of the group,
    NaN when there is none. *)
Definition last (xs : list float) : float :=
  List.last (dropna xs) nan.

(** The changes [x_i / x_(i-1) - 1] of consecutive entries. *)
Fixpoint changes (prev : float) (xs : list float) : list float :=
  match xs with
  | [] => []
  | x :: rest => (x / prev - 1) :: changes x rest
  end.

(** [Series.pct_change()]: NaN in the first position, then the change from
    each entry to the next (no filling of missing values beforehand, as in
    pandas 3; earlier versions first carry the last valid value forward,
    which is the same on a column without missing values). *)
Definition pct_change (xs : list float) : list float :=
  match xs with
  | [] => []
  | x :: rest => nan :: changes x rest
  end.

(** [Series.std()]: the sample standard deviation (ddof = 1) of the
    non-missing values, NaN when there are fewer than two. *)
Definition std (xs : list float) : float :=
  let ys := dropna xs in
  match ys with
  | [] | [_] => nan
  | _ =>
      let m := mean ys in
      sqrt (sum (map (fun y => (y - m) * (y - m)) ys)
            / of_nat (List.length ys - 1))
  end.

End Np.

(** ** Data model *)

(** A date is a calendar day, named by the number
    [31 * (12 * year + (month - 1)) + (day - 1)]: the months in their order
    and, within a month, its days.  (A number past the last day of its month
    names no day.)  The dates of the file carry no time of day. *)
Definition date_t : Type := Z.

Definition month_index (d : date_t) : Z := (d / 31)%Z.
Definition day_of (d : date_t) : Z := (d mod 31 + 1)%Z.

(** The first day of the month of a given index. *)
Definition month_start (m : Z) : date_t := (31 * m)%Z.

Definition year_of (d : date_t) : Z := (month_index d / 12)%Z.
Definition month_of (d : date_t) : Z := (month_index d mod 12 + 1)%Z.
Definition quarter_of (d : date_t) : Z := ((month_of d - 1) / 3 + 1)%Z.

(** One row of the CSV file after [pd.read_csv] and [pd.to_datetime]. *)
Record RawPeriod : Type := mkRaw {
  raw_date : date_t;
  raw_revenue : float;
  raw_cogs : float;
  raw_gross_profit : float;
  raw_operating_expenses : float;
  raw_operating_income : float;
  raw_depreciation : float;
  raw_interest_expense : float;
  raw_net_income : float;
  raw_total_assets : float;
  raw_total_liabilities : float;
  raw_total_equity : float;
  raw_cash : float;
  raw_current_assets : float;
  raw_current_liabilities : float;
  raw_inventory : float;
  raw_accounts_receivable : float;
  raw_accounts_payable : float;
  raw_long_term_debt : float
}.

(** One row of the frame the engine works on: the raw columns and the columns
    [load_financial_data] adds. *)
Record Period : Type := mkPeriod {
  date : date_t;
  year : Z;
  quarter : Z;
  revenue : float;
  cogs : float;
  gross_profit : float;
  operating_expenses : float;
  operating_income : float;
  depreciation : float;
  interest_expense : float;
  net_income : float;
  total_assets : float;
  total_liabilities : float;
  total_equity : float;
  cash : float;
  current_assets : float;
  current_liabilities : float;
  inventory : float;
  accounts_receivable : float;
  accounts_payable : float;
  long_term_debt : float;
  gross_margin : float;
  operating_margin : float;
  net_margin : float;
  ebitda : float;
  ebitda_margin : float
}.

Definition DataFrame : Type := list Period.

(** [df.iloc[-1]]: the last row, [IndexError] on a frame without rows. *)
Fixpoint iloc_last {A : Type} (rows : list A) : result A :=
  match rows with
  | [] => Raise IndexError
  | [r] => Ok r
  | _ :: rest => iloc_last rest
  end.

(** [df.iloc[-2]], read only when [len(df) > 1]. *)
Fixpoint iloc_last2 {A : Type} (rows : list A) : result A :=
  match rows with
  | [] | [_] => Raise IndexError
  | [r; _] => Ok r
  | _ :: rest => iloc_last2 rest
  end.

(** What reading the last row makes of a function of a frame [f] at the
    frame [df]: it raises exactly when [df] has no rows, what it raises is
    [IndexError], and it returns exactly when [df] has rows. *)
Definition needs_rows {A : Type} (f : DataFrame -> result A) (df : DataFrame)
  : Prop :=
  (forall e, f df = Raise e <-> df = [] /\ e = IndexError)
  /\ ((exists r, f df = Ok r) <-> df <> []).

(** ** data_loader.py *)

Module DataLoader.

(** The columns [load_financial_data] computes for one row. *)
Definition add_columns (r : RawPeriod) : Period :=
  let ebitda := r.(raw_operating_income) + r.(raw_depreciation) in
  {| date := r.(raw_date);
     year := year_of r.(raw_date);
     quarter := quarter_of r.(raw_date);
     revenue := r.(raw_revenue);
     cogs := r.(raw_cogs);
     gross_profit := r.(raw_gross_profit);
     operating_expenses := r.(raw_operating_expenses);
     operating_income := r.(raw_operating_income);
     depreciation := r.(raw_depreciation);
     interest_expense := r.(raw_interest_expense);
     net_income := r.(raw_net_income);
     total_assets := r.(raw_total_assets);
     total_liabilities := r.(raw_total_liabilities);
     total_equity := r.(raw_total_equity);
     cash := r.(raw_cash);
     current_assets := r.(raw_current_assets);
     current_liabilities := r.(raw_current_liabilities);
     inventory := r.(raw_inventory);
     accounts_receivable := r.(raw_accounts_receivable);
     accounts_payable := r.(raw_accounts_payable);
     long_term_debt := r.(raw_long_term_debt);
     gross_margin := Np.round2 (r.(raw_gross_profit) / r.(raw_revenue) * 100);
     operating_margin :=
       Np.round2 (r.(raw_operating_income) / r.(raw_revenue) * 100);
     net_margin := Np.round2 (r.(raw_net_income) / r.(raw_revenue) * 100);
     ebitda := ebitda;
     ebitda_margin := Np.round2 (ebitda / r.(raw_revenue) * 100) |}.

(** [df.sort_values('date')], by insertion; dates are unique in a series. *)
Fixpoint insert_by_date (r : RawPeriod) (rows : list RawPeriod) : list RawPeriod :=
  match rows with
  | [] => [r]
  | x :: rest =>
      if (r.(raw_date) <? x.(raw_date))%Z then r :: x :: rest
      else x :: insert_by_date r rest
  end.

Definition sort_values_date (rows : list RawPeriod) : list RawPeriod :=
  fold_left (fun acc r => insert_by_date r acc) rows [].

(** [load_financial_data], from the parsed rows on. *)
Definition load_financial_data (rows : list RawPeriod) : DataFrame :=
  map add_columns (sort_values_date rows).

(** [df[df['year'] == y]]. *)
Definition rows_of_year (df : DataFrame) (y : Z) : DataFrame :=
  filter (fun p => (p.(year) =? y)%Z) df.

(** The dictionary [get_period_comparison] returns when both years have
    rows. *)
Record Comparison : Type := mkComparison {
  current_revenue : float;
  previous_revenue : float;
  revenue_growth : float;
  current_net_income : float;
  previous_net_income : float;
  net_income_growth : float;
  current_gross_margin : float;
  previous_gross_margin : float
}.

(** [get_period_comparison]: [None] is the empty dictionary [{}]. *)
Definition get_period_comparison (df : DataFrame) (current_year previous_year : Z)
  : option Comparison :=
  let current := rows_of_year df current_year in
  let previous := rows_of_year df previous_year in
  match current, previous with
  | [], _ | _, [] => None
  | _, _ =>
      let rev_c := Np.sum (map revenue current) in
      let rev_p := Np.sum (map revenue previous) in
      let ni_c := Np.sum (map net_income current) in
      let ni_p := Np.sum (map net_income previous) in
      Some {| current_revenue := rev_c;
              previous_revenue := rev_p;
              revenue_growth := (rev_c / rev_p - 1) * 100;
              current_net_income := ni_c;
              previous_net_income := ni_p;
              net_income_growth := (ni_c / ni_p - 1) * 100;
              current_gross_margin :=
                Np.sum (map gross_profit current) / rev_c * 100;
              previous_gross_margin :=
                Np.sum (map gross_profit previous) / rev_p * 100 |}
  end.

(** Python's truth value of an optional integer argument: [None] and [0]
    are false. *)
Definition truthy (x : option Z) : bool :=
  match x with
  | None => false
  | Some z => negb (z =? 0)%Z
  end.

(** [if arg: filtered = filtered[filtered[column] == arg]]. *)
Definition filter_if (arg : option Z) (column : Period -> Z) (df : DataFrame)
  : DataFrame :=
  match arg with
  | Some v => if truthy arg then filter (fun p => (column p =? v)%Z) df else df
  | None => df
  end.

(** [filter_by_period]: each filter is applied only when its argument is
    true in Python's sense. *)
Definition filter_by_period (df : DataFrame) (year_arg quarter_arg : option Z)
  : DataFrame :=
  filter_if quarter_arg quarter (filter_if year_arg year df).

(** [get_ytd_data]: the rows of one year. *)
Definition get_ytd_data (df : DataFrame) (y : Z) : DataFrame :=
  filter (fun p => (p.(year) =? y)%Z) df.

(** [Series.unique()]: the distinct values in order of first appearance. *)
Definition unique (xs : list Z) : list Z :=
  fold_left (fun seen x => if existsb (Z.eqb x) seen then seen else seen ++ [x])
            xs [].

(** Python's [sorted] on integers, by insertion. *)
Fixpoint insert_sorted (x : Z) (ys : list Z) : list Z :=
  match ys with
  | [] => [x]
  | y :: rest =>
      if (x <=? y)%Z then x :: y :: rest else y :: insert_sorted x rest
  end.

Definition sorted (xs : list Z) : list Z := fold_right insert_sorted [] xs.

(** [get_years] and [get_quarters]. *)
Definition get_years (df : DataFrame) : list Z :=
  sorted (unique (map year df)).

Definition get_quarters (df : DataFrame) : list Z :=
  sorted (unique (map quarter df)).

(** One row of the budget file. *)
Record Budget : Type := mkBudget {
  b_date : date_t;
  budget_revenue : float;
  budget_net_income : float;
  budget_operating_expenses : float
}.

(** [load_budget_data], from the parsed rows on: the rows sorted by date. *)
Fixpoint insert_budget (b : Budget) (rows : list Budget) : list Budget :=
  match rows with
  | [] => [b]
  | x :: rest =>
      if (b.(b_date) <? x.(b_date))%Z then b :: x :: rest
      else x :: insert_budget b rest
  end.

Definition load_budget_data (rows : list Budget) : list Budget :=
  fold_left (fun acc b => insert_budget b acc) rows [].

(** One row of the merged frame: the columns of both sides and the six
    variance columns. *)
Record MergedRow : Type := mkMerged {
  m_actual : Period;
  m_budget : Budget;
  revenue_variance : float;
  revenue_variance_pct : float;
  net_income_variance : float;
  net_income_variance_pct : float;
  opex_variance : float;
  opex_variance_pct : float
}.

Definition merged_row (a : Period) (b : Budget) : MergedRow :=
  let revenue_variance := a.(revenue) - b.(budget_revenue) in
  let net_income_variance := a.(net_income) - b.(budget_net_income) in
  let opex_variance :=
    a.(operating_expenses) - b.(budget_operating_expenses) in
  {| m_actual := a;
     m_budget := b;
     revenue_variance := revenue_variance;
     revenue_variance_pct :=
       Np.round2 (revenue_variance / b.(budget_revenue) * 100);
     net_income_variance := net_income_variance;
     net_income_variance_pct :=
       Np.round2 (net_income_variance / b.(budget_net_income) * 100);
     opex_variance := opex_variance;
     opex_variance_pct :=
       Np.round2 (opex_variance / b.(budget_operating_expenses) * 100) |}.

(** [merge_actual_budget]: the inner join on the date.  Each actual row is
    paired with the budget rows of the same date, in the order of the actual
    rows (the order pandas gives when no date repeats among them). *)
Definition merge_actual_budget (actual_df : DataFrame) (budget_df : list Budget)
  : list MergedRow :=
  flat_map (fun a =>
              map (merged_row a)
                  (filter (fun b => (b.(b_date) =? a.(date))%Z) budget_df))
           actual_df.

(** One row of the frame with the three moving averages added. *)
Record RollingRow : Type := mkRolling {
  r_period : Period;
  revenue_ma : float;
  net_income_ma : float;
  gross_margin_ma : float
}.

(** [Series.rolling(window).mean()]: at each position the mean of the last
    [window] entries, NaN while fewer than [window] entries are there or when
    one of them is missing.  (pandas updates a running sum from window to
    window; the mean is taken here over each window afresh, which is the
    same float whenever the sums are exact.) *)
Definition rolling_mean (window : nat) (xs : list float) : list float :=
  map (fun i =>
         if (i + 1 <? window)%nat then nan
         else
           let values := firstn window (skipn (i + 1 - window) xs) in
           if forallb Np.notna values then Np.mean values else nan)
      (seq 0 (List.length xs)).

Definition calculate_rolling_averages (df : DataFrame) (window : nat)
  : list RollingRow :=
  let revenue_ma := rolling_mean window (map revenue df) in
  let net_income_ma := rolling_mean window (map net_income df) in
  let gross_margin_ma := rolling_mean window (map gross_margin df) in
  map (fun t => {| r_period := fst t;
                   revenue_ma := fst (snd t);
                   net_income_ma := fst (snd (snd t));
                   gross_margin_ma := snd (snd (snd t)) |})
      (combine df (combine revenue_ma (combine net_income_ma gross_margin_ma))).

End DataLoader.

(** ** Grouping by year *)

(** [df.groupby('year')] lists each year once, in increasing order. *)
Fixpoint insert_key (y : Z) (ys : list Z) : list Z :=
  match ys with
  | [] => [y]
  | x :: rest =>
      if (y <? x)%Z then y :: x :: rest
      else if (y =? x)%Z then x :: rest
      else x :: insert_key y rest
  end.

Definition group_keys (df : DataFrame) : list Z :=
  fold_right insert_key [] (map year df).

(** [df.groupby('year')['revenue'].sum()]: one total per year. *)
Definition annual_revenue (df : DataFrame) : list (Z * float) :=
  map (fun y => (y, Np.sum (map revenue (DataLoader.rows_of_year df y))))
      (group_keys df).

(** ** financial_analyzer.py *)

Module FinancialAnalyzer.

Record KPIs : Type := mkKPIs {
  k_total_revenue : float;
  k_revenue_change : float;
  k_gross_profit : float;
  k_gross_margin : float;
  k_operating_income : float;
  k_operating_margin : float;
  k_net_income : float;
  k_net_income_change : float;
  k_net_margin : float;
  k_ebitda : float;
  k_ebitda_margin : float;
  k_total_assets : float;
  k_total_liabilities : float;
  k_total_equity : float;
  k_cash : float
}.

Definition calculate_kpis (df : DataFrame) : result KPIs :=
  latest <- iloc_last df ;;
  changes <-
    (if (1 <? List.length df)%nat then
       previous <- iloc_last2 df ;;
       Ok ((latest.(revenue) / previous.(revenue) - 1) * 100,
           (latest.(net_income) / previous.(net_income) - 1) * 100)
     else Ok (0, 0)) ;;
  Ok {| k_total_revenue := latest.(revenue);
        k_revenue_change := fst changes;
        k_gross_profit := latest.(gross_profit);
        k_gross_margin := latest.(gross_margin);
        k_operating_income := latest.(operating_income);
        k_operating_margin := latest.(operating_margin);
        k_net_income := latest.(net_income);
        k_net_income_change := snd changes;
        k_net_margin := latest.(net_margin);
        k_ebitda := latest.(ebitda);
        k_ebitda_margin := latest.(ebitda_margin);
        k_total_assets := latest.(total_assets);
        k_total_liabilities := latest.(total_liabilities);
        k_total_equity := latest.(total_equity);
        k_cash := latest.(cash) |}.

Record LiquidityRatios : Type := mkLiquidity {
  current_ratio : float;
  quick_ratio : float;
  cash_ratio : float
}.

Definition calculate_liquidity_ratios (df : DataFrame) : result LiquidityRatios :=
  latest <- iloc_last df ;;
  let current_ratio := latest.(current_assets) / latest.(current_liabilities) in
  let quick_ratio :=
    (latest.(current_assets) - latest.(inventory)) / latest.(current_liabilities) in
  let cash_ratio := latest.(cash) / latest.(current_liabilities) in
  Ok {| current_ratio := Np.round2 current_ratio;
        quick_ratio := Np.round2 quick_ratio;
        cash_ratio := Np.round2 cash_ratio |}.

Record EfficiencyRatios : Type := mkEfficiency {
  asset_turnover : float;
  inventory_turnover : float;
  receivables_turnover : float;
  dso : float;
  dio : float;
  dpo : float;
  cash_conversion_cycle : float
}.

Definition calculate_efficiency_ratios (df : DataFrame) : result EfficiencyRatios :=
  latest <- iloc_last df ;;
  let asset_turnover := (latest.(revenue) * 12) / latest.(total_assets) in
  let inventory_turnover := (latest.(cogs) * 12) / latest.(inventory) in
  let receivables_turnover :=
    (latest.(revenue) * 12) / latest.(accounts_receivable) in
  let dso := 365 / receivables_turnover in
  let dio := 365 / inventory_turnover in
  let payables_turnover := (latest.(cogs) * 12) / latest.(accounts_payable) in
  let dpo := 365 / payables_turnover in
  let ccc := dso + dio - dpo in
  Ok {| asset_turnover := Np.round2 asset_turnover;
        inventory_turnover := Np.round2 inventory_turnover;
        receivables_turnover := Np.round2 receivables_turnover;
        dso := Np.round_to 1 dso;
        dio := Np.round_to 1 dio;
        dpo := Np.round_to 1 dpo;
        cash_conversion_cycle := Np.round_to 1 ccc |}.

Record LeverageRatios : Type := mkLeverage {
  debt_to_equity : float;
  debt_ratio : float;
  interest_coverage : float;
  lt_debt_to_equity : float
}.

Definition calculate_leverage_ratios (df : DataFrame) : result LeverageRatios :=
  latest <- iloc_last df ;;
  let debt_to_equity := latest.(total_liabilities) / latest.(total_equity) in
  let debt_ratio := latest.(total_liabilities) / latest.(total_assets) in
  let interest_coverage :=
    if 0 <? latest.(interest_expense)
    then latest.(operating_income) / latest.(interest_expense)
    else 0 in
  let lt_debt_to_equity := latest.(long_term_debt) / latest.(total_equity) in
  Ok {| debt_to_equity := Np.round2 debt_to_equity;
        debt_ratio := Np.round2 debt_ratio;
        interest_coverage := Np.round2 interest_coverage;
        lt_debt_to_equity := Np.round2 lt_debt_to_equity |}.

Record ProfitabilityRatios : Type := mkProfitability {
  roa : float;
  roe : float;
  roic : float;
  p_gross_margin : float;
  p_operating_margin : float;
  p_net_margin : float
}.

Definition calculate_profitability_ratios (df : DataFrame)
  : result ProfitabilityRatios :=
  latest <- iloc_last df ;;
  let roa := (latest.(net_income) * 12) / latest.(total_assets) * 100 in
  let roe := (latest.(net_income) * 12) / latest.(total_equity) * 100 in
  let invested_capital := latest.(total_equity) + latest.(long_term_debt) in
  let roic := (latest.(operating_income) * 12) / invested_capital * 100 in
  Ok {| roa := Np.round2 roa;
        roe := Np.round2 roe;
        roic := Np.round2 roic;
        p_gross_margin := latest.(gross_margin);
        p_operating_margin := latest.(operating_margin);
        p_net_margin := latest.(net_margin) |}.

(** One row of the annual summary. *)
Record AnnualRow : Type := mkAnnual {
  a_year : Z;
  a_revenue : float;
  a_gross_profit : float;
  a_operating_income : float;
  a_net_income : float;
  a_ebitda : float;
  a_total_assets : float;
  a_total_equity : float;
  a_cash : float;
  a_gross_margin : float;
  a_operating_margin : float;
  a_net_margin : float;
  a_revenue_growth : float;
  a_net_income_growth : float
}.

(** The aggregation of one year's rows, the margin columns computed from
    it; the two growth columns are filled in afterwards. *)
Definition annual_row (df : DataFrame) (y : Z) : AnnualRow :=
  let g := DataLoader.rows_of_year df y in
  let rev := Np.sum (map revenue g) in
  let gp := Np.sum (map gross_profit g) in
  let oi := Np.sum (map operating_income g) in
  let ni := Np.sum (map net_income g) in
  {| a_year := y;
     a_revenue := rev;
     a_gross_profit := gp;
     a_operating_income := oi;
     a_net_income := ni;
     a_ebitda := Np.sum (map ebitda g);
     a_total_assets := Np.last (map total_assets g);
     a_total_equity := Np.last (map total_equity g);
     a_cash := Np.last (map cash g);
     a_gross_margin := Np.round2 (gp / rev * 100);
     a_operating_margin := Np.round2 (oi / rev * 100);
     a_net_margin := Np.round2 (ni / rev * 100);
     a_revenue_growth := nan;
     a_net_income_growth := nan |}.

Definition set_growth (r : AnnualRow) (growth : float * float) : AnnualRow :=
  {| a_year := r.(a_year);
     a_revenue := r.(a_revenue);
     a_gross_profit := r.(a_gross_profit);
     a_operating_income := r.(a_operating_income);
     a_net_income := r.(a_net_income);
     a_ebitda := r.(a_ebitda);
     a_total_assets := r.(a_total_assets);
     a_total_equity := r.(a_total_equity);
     a_cash := r.(a_cash);
     a_gross_margin := r.(a_gross_margin);
     a_operating_margin := r.(a_operating_margin);
     a_net_margin := r.(a_net_margin);
     a_revenue_growth := fst growth;
     a_net_income_growth := snd growth |}.

(** [series.pct_change() * 100]. *)
Definition pct_growth (xs : list float) : list float :=
  map (fun c => c * 100) (Np.pct_change xs).

Definition calculate_annual_summary (df : DataFrame) : list AnnualRow :=
  let annual := map (annual_row df) (group_keys df) in
  let revenue_growth := pct_growth (map a_revenue annual) in
  let net_income_growth := pct_growth (map a_net_income annual) in
  map (fun rg => set_growth (fst rg) (snd rg))
      (combine annual (combine revenue_growth net_income_growth)).

(** [df.groupby(['year', 'quarter'])] lists each pair once, in increasing
    order of the year and then of the quarter. *)
Definition key_ltb (a b : Z * Z) : bool :=
  ((fst a <? fst b) || ((fst a =? fst b) && (snd a <? snd b)))%Z.

Definition key_eqb (a b : Z * Z) : bool :=
  ((fst a =? fst b) && (snd a =? snd b))%Z.

Fixpoint insert_key2 (k : Z * Z) (ks : list (Z * Z)) : list (Z * Z) :=
  match ks with
  | [] => [k]
  | x :: rest =>
      if key_ltb k x then k :: x :: rest
      else if key_eqb k x then x :: rest
      else x :: insert_key2 k rest
  end.

Definition quarter_keys (df : DataFrame) : list (Z * Z) :=
  fold_right insert_key2 [] (map (fun p => (p.(year), p.(quarter))) df).

Definition rows_of_quarter (df : DataFrame) (k : Z * Z) : DataFrame :=
  filter (fun p => key_eqb (p.(year), p.(quarter)) k) df.

(** [astype(str)] on an integer column: the decimal numeral. *)
Definition str_of_int (z : Z) : string :=
  NilZero.string_of_int (Z.to_int z).

(** One row of the quarterly summary. *)
Record QuarterlyRow : Type := mkQuarterly {
  q_year : Z;
  q_quarter : Z;
  q_revenue : float;
  q_gross_profit : float;
  q_operating_income : float;
  q_net_income : float;
  q_ebitda : float;
  q_period : string;
  q_gross_margin : float;
  q_net_margin : float
}.

Definition quarterly_row (df : DataFrame) (k : Z * Z) : QuarterlyRow :=
  let g := rows_of_quarter df k in
  let rev := Np.sum (map revenue g) in
  let gp := Np.sum (map gross_profit g) in
  let ni := Np.sum (map net_income g) in
  {| q_year := fst k;
     q_quarter := snd k;
     q_revenue := rev;
     q_gross_profit := gp;
     q_operating_income := Np.sum (map operating_income g);
     q_net_income := ni;
     q_ebitda := Np.sum (map ebitda g);
     q_period := (str_of_int (fst k) ++ " Q" ++ str_of_int (snd k))%string;
     q_gross_margin := Np.round2 (gp / rev * 100);
     q_net_margin := Np.round2 (ni / rev * 100) |}.

Definition calculate_quarterly_summary (df : DataFrame) : list QuarterlyRow :=
  map (quarterly_row df) (quarter_keys df).

(** The ['value'] of a health indicator: a number or a text. *)
Inductive cell : Type :=
| Number (x : float)
| Text (s : string).

Record Indicator : Type := mkIndicator {
  metric : string;
  value : cell;
  status : string;
  benchmark : string;
  description : string
}.

(** ['Good' if good else ('Warning' if warning else 'Critical')]. *)
Definition grade (good warning : bool) : string :=
  if good then "Good"%string
  else if warning then "Warning"%string
  else "Critical"%string.

Section HealthIndicators.

(** Python's conversion of a float to text, as the f-string [f"{x}%"]
    applies it. *)
Variable str_of_float : float -> string.

Definition percent (x : float) : string :=
  (str_of_float x ++ "%")%string.

Definition get_health_indicators (df : DataFrame) : result (list Indicator) :=
  liquidity <- calculate_liquidity_ratios df ;;
  leverage <- calculate_leverage_ratios df ;;
  profitability <- calculate_profitability_ratios df ;;
  let cr := liquidity.(current_ratio) in
  let qr := liquidity.(quick_ratio) in
  let de := leverage.(debt_to_equity) in
  let ic := leverage.(interest_coverage) in
  let roe := profitability.(roe) in
  let nm := profitability.(p_net_margin) in
  Ok [ {| metric := "Current Ratio";
          value := Number cr;
          status := grade (1.5 <=? cr) (1.0 <=? cr);
          benchmark := "≥ 1.5";
          description := "Ability to pay short-term obligations" |};
       {| metric := "Quick Ratio";
          value := Number qr;
          status := grade (1.0 <=? qr) (0.7 <=? qr);
          benchmark := "≥ 1.0";
          description := "Liquid assets coverage of current liabilities" |};
       {| metric := "Debt to Equity";
          value := Number de;
          status := grade (de <=? 1.0) (de <=? 2.0);
          benchmark := "≤ 1.0";
          description := "Financial leverage level" |};
       {| metric := "Interest Coverage";
          value := Number ic;
          status := grade (3.0 <=? ic) (1.5 <=? ic);
          benchmark := "≥ 3.0";
          description := "Ability to service debt" |};
       {| metric := "Return on Equity";
          value := Text (percent roe);
          status := grade (15 <=? roe) (10 <=? roe);
          benchmark := "≥ 15%";
          description := "Shareholder return efficiency" |};
       {| metric := "Net Profit Margin";
          value := Text (percent nm);
          status := grade (15 <=? nm) (10 <=? nm);
          benchmark := "≥ 15%";
          description := "Bottom line profitability" |} ].

End HealthIndicators.

End FinancialAnalyzer.

(** ** forecasting.py *)

Module Forecasting.

(** What the code reads from a fitted statsmodels model: [forecast(h)],
    [resid], [fittedvalues] and the three smoothing parameters. *)
Record HWModel : Type := mkHW {
  hw_forecast : nat -> list float;
  hw_resid : list float;
  hw_fittedvalues : list float;
  smoothing_level : float;
  smoothing_trend : float;
  smoothing_seasonal : float
}.

Inductive ModelParams : Type :=
| HoltWinters (alpha beta gamma : float)
| SimpleGrowth.

Record ForecastRow : Type := mkForecastRow {
  f_date : date_t;
  forecast : float;
  lower_bound : float;
  upper_bound : float
}.

Record Forecast : Type := mkForecast {
  forecast_df : list ForecastRow;
  historical : list (date_t * float);
  mae : float;
  mape : float;
  rmse : float;
  model_params : ModelParams
}.

(** [pd.date_range(start=df['date'].max() + pd.DateOffset(months=1),
    periods=periods, freq='MS')].  The offset moves the latest date to the
    same day of the next month (or to that month's last day), and the ['MS']
    frequency yields month starts from there on: the range begins at the
    next month when the latest date is a first of month, and one month later
    when it is not.  The maximum of no dates is [NaT], which [date_range]
    refuses with a [ValueError]. *)
Definition date_range_after (df : DataFrame) (periods : nat) : result (list date_t) :=
  match map date df with
  | [] => Raise ValueError
  | d :: ds =>
      let latest := fold_left Z.max ds d in
      let first :=
        if (day_of latest =? 1)%Z then (month_index latest + 1)%Z
        else (month_index latest + 2)%Z in
      Ok (map (fun i => month_start (first + Z.of_nat i)) (seq 0 periods))
  end.

(** Two columns combined entry by entry. *)
Definition zip_with {A B C : Type} (f : A -> B -> C) (xs : list A) (ys : list B)
  : list C :=
  map (fun xy => f (fst xy) (snd xy)) (combine xs ys).

Section Engine.

(** libm's [pow], which [x ** y] calls on floats. *)
Variable pow : float -> float -> float.

(** [ExponentialSmoothing(series, seasonal_periods=12, trend='add',
    seasonal='mul', damped_trend=True).fit(optimized=True)]: the fitted
    model, or [None] when the construction or the fit raises. *)
Variable fit : list (date_t * float) -> option HWModel.

Definition simple_forecast (df : DataFrame) (metric : Period -> float)
    (periods : nat) : result Forecast :=
  let series := map metric df in
  let growth_rate := Np.mean (Np.pct_change series) in
  last_value <- iloc_last series ;;
  forecast_dates <- date_range_after df periods ;;
  let forecast_values :=
    map (fun i => last_value * pow (1 + growth_rate) (Np.of_nat (i + 1)))
        (seq 0 periods) in
  Ok {| forecast_df :=
          zip_with (fun d v => {| f_date := d;
                                  forecast := v;
                                  lower_bound := v * 0.9;
                                  upper_bound := v * 1.1 |})
                   forecast_dates forecast_values;
        historical := map (fun p => (p.(date), metric p)) df;
        mae := 0;
        mape := 0;
        rmse := 0;
        model_params := SimpleGrowth |}.

(** The body of the [try] block of [forecast_revenue]; an exception raised
    anywhere in it is caught by [except Exception]. *)
Definition holt_winters_forecast (df : DataFrame) (periods : nat)
  : result Forecast :=
  let revenue_series := map (fun p => (p.(date), p.(revenue))) df in
  match fit revenue_series with
  | None => Raise ValueError
  | Some model =>
      let forecast_values := model.(hw_forecast) periods in
      let std_error := Np.std model.(hw_resid) in
      forecast_dates <- date_range_after df periods ;;
      let fitted_values := model.(hw_fittedvalues) in
      let actual := map snd revenue_series in
      let err := zip_with sub actual fitted_values in
      let mae := Np.mean (map abs err) in
      let mape :=
        Np.mean (map abs (zip_with div err actual)) * 100 in
      let rmse := sqrt (Np.mean (map (fun e => e * e) err)) in
      Ok {| forecast_df :=
              zip_with (fun d v => {| f_date := d;
                                      forecast := v;
                                      lower_bound := v - 1.96 * std_error;
                                      upper_bound := v + 1.96 * std_error |})
                       forecast_dates forecast_values;
            historical := revenue_series;
            mae := Np.round2 mae;
            mape := Np.round2 mape;
            rmse := Np.round2 rmse;
            model_params :=
              HoltWinters (Np.round4 model.(smoothing_level))
                          (Np.round4 model.(smoothing_trend))
                          (Np.round4 model.(smoothing_seasonal)) |}
  end.

Definition forecast_revenue (df : DataFrame) (periods : nat) : result Forecast :=
  match holt_winters_forecast df periods with
  | inr r => Ok r
  | inl _ => simple_forecast df revenue periods
  end.

(** The same fit with [seasonal='add'], as [forecast_metric] asks for it. *)
Variable fit_additive : list (date_t * float) -> option HWModel.

(** What [forecast_metric] returns: the dictionary of the fitted model,
    with the keys ['forecast_df'], ['historical'] and ['metric'], or the
    dictionary of [simple_forecast]. *)
Record MetricForecast : Type := mkMetricForecast {
  mf_forecast_df : list (date_t * float);
  mf_historical : list (date_t * float)
}.

Inductive MetricResult : Type :=
| Fitted (r : MetricForecast)
| Fallback (r : Forecast).

Definition forecast_metric (df : DataFrame) (metric : Period -> float)
    (periods : nat) : result MetricResult :=
  let series := map (fun p => (p.(date), metric p)) df in
  let fitted :=
    match fit_additive series with
    | None => Raise ValueError
    | Some model =>
        forecast_dates <- date_range_after df periods ;;
        Ok {| mf_forecast_df :=
                combine forecast_dates (model.(hw_forecast) periods);
              mf_historical := series |}
    end in
  match fitted with
  | inr r => Ok (Fitted r)
  | inl _ => r <- simple_forecast df metric periods ;; Ok (Fallback r)
  end.

Record Projections : Type := mkProjections {
  conservative : float;
  base : float;
  optimistic : float
}.

Record GrowthProjections : Type := mkGrowth {
  avg_annual_growth : float;
  cagr : float;
  monthly_growth : float;
  projections : Projections;
  historical_annual : list (Z * float)
}.

(** [df[df['year'] == df['year'].max()]['revenue'].sum()]; no row equals
    the maximum of no years, and the sum of no rows is 0. *)
Definition last_year_revenue (df : DataFrame) : float :=
  match map year df with
  | [] => 0
  | y :: ys =>
      Np.sum (map revenue (DataLoader.rows_of_year df (fold_left Z.max ys y)))
  end.

Definition calculate_growth_projections (df : DataFrame) : GrowthProjections :=
  let df_annual := map snd (annual_revenue df) in
  let n := List.length df_annual in
  let '(avg_growth, cagr) :=
    if (2 <=? n)%nat then
      let yoy_growth := Np.dropna (Np.pct_change df_annual) in
      (Np.mean yoy_growth,
       pow (List.last df_annual nan / hd nan df_annual)
           (1 / Np.of_nat (n - 1)) - 1)
    else (0, 0) in
  let monthly_growth := Np.mean (Np.pct_change (map revenue df)) in
  let last_year_revenue := last_year_revenue df in
  {| avg_annual_growth := Np.round2 (avg_growth * 100);
     cagr := Np.round2 (cagr * 100);
     monthly_growth := Np.round2 (monthly_growth * 100);
     projections :=
       {| conservative := last_year_revenue * (1 + avg_growth * 0.5);
          base := last_year_revenue * (1 + avg_growth);
          optimistic := last_year_revenue * (1 + avg_growth * 1.5) |};
     historical_annual := annual_revenue df |}.

End Engine.

Record ScenarioParams : Type := mkScenario {
  growth : float;
  margin_change : float
}.

Record ScenarioRow : Type := mkScenarioRow {
  scenario : string;
  s_revenue : float;
  s_growth_rate : float;
  s_net_margin : float;
  s_net_income : float
}.

(** The scenario table is a dictionary, read in the order its entries were
    written. *)
Definition ScenarioTable : Type := list (string * ScenarioParams).

Definition default_scenarios : ScenarioTable :=
  [ ("pessimistic"%string, {| growth := -0.05; margin_change := -0.02 |});
    ("base"%string, {| growth := 0.10; margin_change := 0 |});
    ("optimistic"%string, {| growth := 0.20; margin_change := 0.02 |}) ].

Definition scenario_row (base_revenue base_margin : float)
    (entry : string * ScenarioParams) : ScenarioRow :=
  let params := snd entry in
  let projected_revenue := base_revenue * (1 + params.(growth)) in
  let projected_margin := base_margin + params.(margin_change) in
  let projected_net_income := projected_revenue * projected_margin in
  {| scenario := fst entry;
     s_revenue := projected_revenue;
     s_growth_rate := params.(growth) * 100;
     s_net_margin := projected_margin * 100;
     s_net_income := projected_net_income |}.

Definition scenario_analysis (df : DataFrame) (scenarios : option ScenarioTable)
  : result (list ScenarioRow) :=
  let scenarios :=
    match scenarios with
    | None => default_scenarios
    | Some table => table
    end in
  latest_revenue <- iloc_last (map revenue df) ;;
  let base_revenue := latest_revenue * 12 in
  latest_margin <- iloc_last (map net_margin df) ;;
  let base_margin := latest_margin / 100 in
  Ok (map (scenario_row base_revenue base_margin) scenarios).

End Forecasting.

(** ** Sample data *)

Module Sample.

(** A month of figures: flows and the balance sheet items the ratios read;
    the other columns are fixed. *)
Definition month (d : date_t) (revenue gross_profit operating_income
    interest_expense net_income : float) : RawPeriod :=
  {| raw_date := d;
     raw_revenue := revenue;
     raw_cogs := revenue - gross_profit;
     raw_gross_profit := gross_profit;
     raw_operating_expenses := gross_profit - operating_income;
     raw_operating_income := operating_income;
     raw_depreciation := 10;
     raw_interest_expense := interest_expense;
     raw_net_income := net_income;
     raw_total_assets := 5000;
     raw_total_liabilities := 2000;
     raw_total_equity := 3000;
     raw_cash := 400;
     raw_current_assets := 1500;
     raw_current_liabilities := 1000;
     raw_inventory := 300;
     raw_accounts_receivable := 500;
     raw_accounts_payable := 250;
     raw_long_term_debt := 1000 |}.

(** The same month with other current assets, current liabilities,
    inventory and cash. *)
Definition with_liquidity (current_assets current_liabilities inventory
    cash : float) (r : RawPeriod) : RawPeriod :=
  {| raw_date := r.(raw_date);
     raw_revenue := r.(raw_revenue);
     raw_cogs := r.(raw_cogs);
     raw_gross_profit := r.(raw_gross_profit);
     raw_operating_expenses := r.(raw_operating_expenses);
     raw_operating_income := r.(raw_operating_income);
     raw_depreciation := r.(raw_depreciation);
     raw_interest_expense := r.(raw_interest_expense);
     raw_net_income := r.(raw_net_income);
     raw_total_assets := r.(raw_total_assets);
     raw_total_liabilities := r.(raw_total_liabilities);
     raw_total_equity := r.(raw_total_equity);
     raw_cash := cash;
     raw_current_assets := current_assets;
     raw_current_liabilities := current_liabilities;
     raw_inventory := inventory;
     raw_accounts_receivable := r.(raw_accounts_receivable);
     raw_accounts_payable := r.(raw_accounts_payable);
     raw_long_term_debt := r.(raw_long_term_debt) |}.

(** The day [d] of month [m] of year [y], and the first of a month. *)
Definition on (y m d : Z) : date_t :=
  (month_start (12 * y + (m - 1)) + (d - 1))%Z.

Definition first_of (y m : Z) : date_t := on y m 1.

Definition jan (y : Z) : date_t := first_of y 1.

(** One month: operating income 300 against interest expense 100. *)
Definition one_month : DataFrame :=
  DataLoader.load_financial_data [month (jan 2023) 1000 400 300 100 200].

(** One month with no interest expense. *)
Definition no_interest : DataFrame :=
  DataLoader.load_financial_data [month (jan 2023) 1000 400 300 0 200].

(** One month with no current liabilities: current assets 1, no inventory
    and no cash. *)
Definition no_current_liabilities : DataFrame :=
  DataLoader.load_financial_data
    [with_liquidity 1 0 0 0 (month (jan 2023) 1000 400 300 100 200)].

(** Two months: revenue 1000 then 1250, net income 200 then 300. *)
Definition two_months : DataFrame :=
  DataLoader.load_financial_data
    [month (jan 2023) 1000 400 300 100 200;
     month (first_of 2023 2) 1250 500 350 100 300].

(** Two years of one month each: revenue 100 then 200. *)
Definition doubling : DataFrame :=
  DataLoader.load_financial_data
    [month (jan 2022) 100 40 30 10 20;
     month (jan 2023) 200 80 60 10 40].

(** One year of two unequal months: gross margins 10% on revenue 100 and
    50% on revenue 900. *)
Definition uneven_year : DataFrame :=
  DataLoader.load_financial_data
    [month (jan 2023) 100 10 5 1 2;
     month (first_of 2023 2) 900 450 300 1 200].

(** Latest monthly revenue 100,000 with a net margin of 20%. *)
Definition hundred_thousand : DataFrame :=
  DataLoader.load_financial_data
    [month (jan 2023) 100000 40000 30000 100 20000].

(** A power function for whole exponents from 0 to 64, by repeated
    multiplication; NaN elsewhere.  It agrees with libm's [pow] wherever
    the products are exact, in particular at exponent 1. *)
Fixpoint pow_nat (x : float) (n : nat) : float :=
  match n with
  | O => 1
  | S O => x
  | S m => x * pow_nat x m
  end.

Definition pow_whole (x y : float) : float :=
  match find (fun n => Np.of_nat n =? y) (seq 0 65) with
  | Some n => pow_nat x n
  | None => nan
  end.

(** A fit that always raises, as statsmodels does on a series shorter than
    two seasonal cycles. *)
Definition fit_fails : list (date_t * float) -> option Forecasting.HWModel :=
  fun _ => None.

(** One month without inventory (cost of goods sold 600). *)
Definition no_inventory : DataFrame :=
  DataLoader.load_financial_data
    [with_liquidity 1500 1000 0 400 (month (jan 2023) 1000 400 300 100 200)].

(** One month without revenue, equity or income: its margins and its
    return on equity are 0/0. *)
Definition blank_month : RawPeriod :=
  {| raw_date := jan 2023;
     raw_revenue := 0;
     raw_cogs := 0;
     raw_gross_profit := 0;
     raw_operating_expenses := 0;
     raw_operating_income := 0;
     raw_depreciation := 0;
     raw_interest_expense := 0;
     raw_net_income := 0;
     raw_total_assets := 0;
     raw_total_liabilities := 0;
     raw_total_equity := 0;
     raw_cash := 0;
     raw_current_assets := 0;
     raw_current_liabilities := 0;
     raw_inventory := 0;
     raw_accounts_receivable := 0;
     raw_accounts_payable := 0;
     raw_long_term_debt := 0 |}.

(** Three months given out of order: March, January, February 2023, with
    revenue 300, 100 and 200. *)
Definition shuffled : list RawPeriod :=
  [ month (first_of 2023 3) 300 120 90 10 60;
    month (jan 2023) 100 40 30 10 20;
    month (first_of 2023 2) 200 80 60 10 40 ].

(** Budgets for January and March 2023 only; the March budget for revenue
    is 0. *)
Definition budgets : list DataLoader.Budget :=
  [ {| DataLoader.b_date := jan 2023;
       DataLoader.budget_revenue := 80;
       DataLoader.budget_net_income := 10;
       DataLoader.budget_operating_expenses := 10 |};
    {| DataLoader.b_date := (first_of 2023 3);
       DataLoader.budget_revenue := 0;
       DataLoader.budget_net_income := 50;
       DataLoader.budget_operating_expenses := 30 |} ].



(** One month dated on its last day, 31 January 2024. *)
Definition month_end : DataFrame :=
  DataLoader.load_financial_data [month (on 2024 1 31) 1000 400 300 100 200].

(** A fit that succeeds: it forecasts the constant 1. *)
Definition fit_constant : list (date_t * float) -> option Forecasting.HWModel :=
  fun series =>
    Some {| Forecasting.hw_forecast := fun h => repeat 1 h;
            Forecasting.hw_resid := map (fun _ => 0) series;
            Forecasting.hw_fittedvalues := map snd series;
            Forecasting.smoothing_level := 0.5;
            Forecasting.smoothing_trend := 0.5;
            Forecasting.smoothing_seasonal := 0.5 |}.

End Sample.

(** * Properties *)

(** ** Reading the last rows of a frame *)

Lemma iloc_last_app {A : Type} (rows : list A) (r : A) :
  iloc_last (rows ++ [r]) = Ok r.
Proof.
  induction rows as [| x rest IH]; [reflexivity |].
  simpl. rewrite IH. destruct rest; reflexivity.
Qed.

Lemma iloc_last2_app {A : Type} (rows : list A) (p r : A) :
  iloc_last2 (rows ++ [p; r]) = Ok p.
Proof.
  induction rows as [| x rest IH]; [reflexivity |].
  simpl. rewrite IH. destruct rest as [| y [| z rest']]; reflexivity.
Qed.

Lemma snoc_cases {A : Type} (rows : list A) :
  rows = [] \/ exists front r, rows = front ++ [r].
Proof.
  destruct rows as [| x rest]; [now left |].
  right.
  destruct (exists_last (l := x :: rest)) as [front [r Hr]]; [discriminate |].
  now exists front, r.
Qed.

Lemma iloc_last_raises {A : Type} (rows : list A) (e : exn) :
  iloc_last rows = Raise e <-> rows = [] /\ e = IndexError.
Proof.
  split.
  - destruct (snoc_cases rows) as [-> | [front [r ->]]].
    + simpl. unfold Raise. intros H. injection H as <-. now split.
    + rewrite iloc_last_app. discriminate.
  - intros [-> ->]. reflexivity.
Qed.

Lemma iloc_last_map {A B : Type} (f : A -> B) (rows : list A) (r : A) :
  iloc_last (map f (rows ++ [r])) = Ok (f r).
Proof. rewrite map_app. apply iloc_last_app. Qed.

Lemma long_frame {A : Type} (rows : list A) (p r : A) :
  (1 <? List.length (rows ++ [p; r]))%nat = true.
Proof.
  apply Nat.ltb_lt. rewrite length_app. simpl. lia.
Qed.

(** ** Comparisons and division of floats *)

Lemma Prim2SF_zero : Prim2SF 0 = S754_zero false.
Proof. reflexivity. Qed.

(** A float that is at most 0 is not above 0. *)
Lemma leb_zero_not_pos (x : float) : (x <=? 0) = true -> (0 <? x) = false.
Proof.
  rewrite FloatAxioms.leb_spec, FloatAxioms.ltb_spec, Prim2SF_zero.
  destruct (Prim2SF x) as [s | s | | s m e]; try destruct s; cbn;
    try reflexivity; discriminate.
Qed.

Lemma eqb_zero_inv (x : float) :
  (x =? 0) = true -> exists s, Prim2SF x = S754_zero s.
Proof.
  rewrite FloatAxioms.eqb_spec, Prim2SF_zero. intros H.
  destruct (Prim2SF x) as [s | s | | s m e]; try destruct s; cbn in H;
    try discriminate; eexists; reflexivity.
Qed.

(** Division by a zero gives NaN or an infinity. *)
Lemma div_zero_special (x y : float) :
  (y =? 0) = true -> x / y = nan \/ x / y = infinity \/ x / y = neg_infinity.
Proof.
  intros H.
  destruct (eqb_zero_inv y H) as [s Hy].
  pose proof (SF2Prim_Prim2SF (x / y)) as Hq.
  rewrite FloatAxioms.div_spec, Hy in Hq. rewrite <- Hq.
  destruct (Prim2SF x) as [sx | sx | | sx m e]; destruct s; try destruct sx;
    cbn; auto.
Qed.

(** Rounding keeps NaN and the infinities, so a ratio over zero is still not
    a finite number after [round(_, 2)]. *)
Lemma round2_div_zero (x y : float) :
  (y =? 0) = true -> is_finite (Np.round2 (x / y)) = false.
Proof.
  intros H.
  destruct (div_zero_special x y H) as [-> | [-> | ->]]; reflexivity.
Qed.

(** ** calculate_kpis *)

Import FinancialAnalyzer.

Lemma calculate_kpis_empty : calculate_kpis [] = Raise IndexError.
Proof. reflexivity. Qed.

Lemma calculate_kpis_one (latest : Period) :
  exists k, calculate_kpis [latest] = Ok k
            /\ k.(k_revenue_change) = 0 /\ k.(k_net_income_change) = 0.
Proof. eexists. repeat split. Qed.

Lemma calculate_kpis_two (df : DataFrame) (previous latest : Period) :
  exists k, calculate_kpis (df ++ [previous; latest]) = Ok k
    /\ k.(k_revenue_change)
       = (latest.(revenue) / previous.(revenue) - 1) * 100
    /\ k.(k_net_income_change)
       = (latest.(net_income) / previous.(net_income) - 1) * 100.
Proof.
  unfold calculate_kpis.
  replace (df ++ [previous; latest]) with ((df ++ [previous]) ++ [latest])
    by (rewrite <- app_assoc; reflexivity).
  rewrite iloc_last_app.
  rewrite <- app_assoc. simpl app.
  cbn [bind Ok]. rewrite long_frame, iloc_last2_app.
  eexists. repeat split.
Qed.

(** C2: [calculate_kpis] raises exactly on the frame without rows, where
    [df.iloc[-1]] raises [IndexError]; on every frame with at least one row
    it returns the KPI dictionary. *)
Theorem calculate_kpis_raises_iff_empty (df : DataFrame) :
  (calculate_kpis df = Raise IndexError <-> df = [])
  /\ ((exists e, calculate_kpis df = Raise e) <-> df = [])
  /\ ((exists k, calculate_kpis df = Ok k) <-> df <> []).
Proof.
  destruct (snoc_cases df) as [-> | [front [latest ->]]].
  - repeat split; try reflexivity; try (now exists IndexError).
    + intros [k Hk]. discriminate.
    + intros H. now contradiction H.
  - assert (Hok : exists k, calculate_kpis (front ++ [latest]) = Ok k).
    { destruct (snoc_cases front) as [-> | [df [previous ->]]].
      - destruct (calculate_kpis_one latest) as [k [Hk _]]. now exists k.
      - rewrite <- app_assoc. simpl app.
        destruct (calculate_kpis_two df previous latest) as [k [Hk _]].
        now exists k. }
    destruct Hok as [k Hk].
    assert (Hne : front ++ [latest] <> []) by (now destruct front).
    repeat split.
    + rewrite Hk. discriminate.
    + intros H. now contradiction Hne.
    + intros [e He]. rewrite Hk in He. discriminate.
    + intros H. now contradiction Hne.
    + intros _. exact Hne.
    + intros _. now exists k.
Qed.

(** C5: with at least two periods the two change fields are
    [(latest / previous - 1) * 100] over the last two periods; with exactly
    one period both are 0 and nothing is raised. *)
Theorem calculate_kpis_changes :
  (forall (df : DataFrame) (previous latest : Period),
      exists k, calculate_kpis (df ++ [previous; latest]) = Ok k
        /\ k.(k_revenue_change)
           = (latest.(revenue) / previous.(revenue) - 1) * 100
        /\ k.(k_net_income_change)
           = (latest.(net_income) / previous.(net_income) - 1) * 100)
  /\ (forall latest : Period,
      exists k, calculate_kpis [latest] = Ok k
        /\ k.(k_revenue_change) = 0 /\ k.(k_net_income_change) = 0).
Proof.
  split.
  - apply calculate_kpis_two.
  - apply calculate_kpis_one.
Qed.

(** ** calculate_liquidity_ratios *)

(** C3, as the code has it: on a frame with at least one row
    [calculate_liquidity_ratios] never raises.  It returns the three
    quotients rounded to 2 decimals whatever the current liabilities are;
    when they are zero each quotient is an infinity or NaN, returned as
    such. *)
Theorem calculate_liquidity_ratios_total (df : DataFrame) (latest : Period) :
  let r := {| current_ratio :=
                Np.round2 (latest.(current_assets) / latest.(current_liabilities));
              quick_ratio :=
                Np.round2 ((latest.(current_assets) - latest.(inventory))
                           / latest.(current_liabilities));
              cash_ratio :=
                Np.round2 (latest.(cash) / latest.(current_liabilities)) |} in
  calculate_liquidity_ratios (df ++ [latest]) = Ok r
  /\ ((latest.(current_liabilities) =? 0) = true ->
      is_finite r.(current_ratio) = false
      /\ is_finite r.(quick_ratio) = false
      /\ is_finite r.(cash_ratio) = false).
Proof.
  split.
  - unfold calculate_liquidity_ratios. rewrite iloc_last_app. reflexivity.
  - intros H. cbn [current_ratio quick_ratio cash_ratio].
    repeat split; apply round2_div_zero; exact H.
Qed.

(** With current assets 1 over current liabilities 0 the current ratio is
    returned as infinity. *)
Lemma calculate_liquidity_ratios_total_witness :
  exists r, calculate_liquidity_ratios Sample.no_current_liabilities = Ok r
            /\ is_finite r.(current_ratio) = false
            /\ is_finite r.(quick_ratio) = false
            /\ is_finite r.(cash_ratio) = false.
Proof.
  pose (latest := DataLoader.add_columns
          (Sample.with_liquidity 1 0 0 0
             (Sample.month (Sample.jan 2023) 1000 400 300 100 200))).
  destruct (calculate_liquidity_ratios_total [] latest) as [Hr Hz].
  eexists. split; [exact Hr |]. apply Hz. reflexivity.
Defined.

(** C3 fails as stated: no error is signalled for zero current liabilities;
    the infinities and NaN come back as ordinary ratios. *)
Lemma zero_current_liabilities_not_signalled :
  calculate_liquidity_ratios Sample.no_current_liabilities
  = Ok {| current_ratio := infinity;
          quick_ratio := infinity;
          cash_ratio := nan |}.
Proof. vm_compute. reflexivity. Qed.

(** ** calculate_leverage_ratios *)

(** C4: on a frame with at least one row the interest coverage is exactly 0
    when the latest interest expense is at most 0, and the quotient
    operating income / interest expense rounded to 2 decimals when it is
    above 0. *)
Theorem interest_coverage_policy (df : DataFrame) (latest : Period) :
  exists r, calculate_leverage_ratios (df ++ [latest]) = Ok r
    /\ ((latest.(interest_expense) <=? 0) = true -> r.(interest_coverage) = 0)
    /\ ((0 <? latest.(interest_expense)) = true ->
        r.(interest_coverage)
        = Np.round2 (latest.(operating_income) / latest.(interest_expense))).
Proof.
  unfold calculate_leverage_ratios. rewrite iloc_last_app.
  eexists. split; [reflexivity |]. cbn [interest_coverage]. split.
  - intros H. rewrite (leb_zero_not_pos _ H). reflexivity.
  - intros H. rewrite H. reflexivity.
Qed.

(** Operating income 300 over interest expense 100 gives 3.0. *)
Lemma interest_coverage_policy_witness :
  exists r, calculate_leverage_ratios Sample.one_month = Ok r
            /\ r.(interest_coverage) = 3.
Proof.
  pose (latest := DataLoader.add_columns
          (Sample.month (Sample.jan 2023) 1000 400 300 100 200)).
  destruct (interest_coverage_policy [] latest) as [r [Hr [_ Hpos]]].
  exists r. split; [exact Hr |].
  rewrite Hpos; reflexivity.
Defined.

(** No interest expense gives exactly 0. *)
Example interest_coverage_zero :
  exists r, calculate_leverage_ratios Sample.no_interest = Ok r
            /\ r.(interest_coverage) = 0.
Proof. eexists. split; [vm_compute; reflexivity | reflexivity]. Qed.

(** ** get_health_indicators *)

(** C10: on a frame with at least one row there are exactly six indicators,
    in this order; the value of the first four is the ratio itself, the value
    of the last two is a text, the number followed by a percent sign. *)
Theorem get_health_indicators_shape (str_of_float : float -> string)
    (df : DataFrame) (latest : Period) :
  exists inds,
    get_health_indicators str_of_float (df ++ [latest]) = Ok inds
    /\ map metric inds
       = [ "Current Ratio"; "Quick Ratio"; "Debt to Equity";
           "Interest Coverage"; "Return on Equity"; "Net Profit Margin" ]%string
    /\ map value inds
       = [ Number (Np.round2 (latest.(current_assets)
                              / latest.(current_liabilities)));
           Number (Np.round2 ((latest.(current_assets) - latest.(inventory))
                              / latest.(current_liabilities)));
           Number (Np.round2 (latest.(total_liabilities) / latest.(total_equity)));
           Number (Np.round2 (if 0 <? latest.(interest_expense)
                              then latest.(operating_income)
                                   / latest.(interest_expense)
                              else 0));
           Text (str_of_float
                   (Np.round2 ((latest.(net_income) * 12)
                               / latest.(total_equity) * 100)) ++ "%");
           Text (str_of_float latest.(net_margin) ++ "%") ].
Proof.
  unfold get_health_indicators, calculate_liquidity_ratios,
    calculate_leverage_ratios, calculate_profitability_ratios.
  rewrite iloc_last_app. cbn [bind Ok].
  eexists. repeat split.
Qed.

(** Without rows the first ratio dictionary already fails. *)
Example get_health_indicators_empty (str_of_float : float -> string) :
  get_health_indicators str_of_float [] = Raise IndexError.
Proof. reflexivity. Qed.

(** ** get_period_comparison *)

Import DataLoader.

(** C7: the result is the empty dictionary when either year has no rows and
    nothing is raised; when both have rows, the growth figures are
    [(sum_a / sum_b - 1) * 100] over the sums within each year and each gross
    margin is [sum(gross_profit) / sum(revenue) * 100]. *)
Theorem get_period_comparison_spec (df : DataFrame) (year_a year_b : Z) :
  ((rows_of_year df year_a = [] \/ rows_of_year df year_b = []) ->
   get_period_comparison df year_a year_b = None)
  /\ (rows_of_year df year_a <> [] -> rows_of_year df year_b <> [] ->
      exists c,
        get_period_comparison df year_a year_b = Some c
        /\ c.(revenue_growth)
           = (Np.sum (map revenue (rows_of_year df year_a))
              / Np.sum (map revenue (rows_of_year df year_b)) - 1) * 100
        /\ c.(net_income_growth)
           = (Np.sum (map net_income (rows_of_year df year_a))
              / Np.sum (map net_income (rows_of_year df year_b)) - 1) * 100
        /\ c.(current_gross_margin)
           = Np.sum (map gross_profit (rows_of_year df year_a))
             / Np.sum (map revenue (rows_of_year df year_a)) * 100
        /\ c.(previous_gross_margin)
           = Np.sum (map gross_profit (rows_of_year df year_b))
             / Np.sum (map revenue (rows_of_year df year_b)) * 100).
Proof.
  unfold get_period_comparison.
  destruct (rows_of_year df year_a) as [| a rest_a];
    destruct (rows_of_year df year_b) as [| b rest_b]; split;
    try reflexivity; try (intros Ha Hb; solve [now contradiction Ha
                                              | now contradiction Hb]).
  - intros [H | H]; discriminate.
  - intros _ _. eexists. repeat split.
Qed.

(** Revenue 200 in 2023 against 100 in 2022 is a growth of 100%; a year
    without rows gives the empty dictionary. *)
Lemma get_period_comparison_spec_witness :
  (exists c, get_period_comparison Sample.doubling 2023 2022 = Some c
             /\ c.(revenue_growth) = 100 /\ c.(current_gross_margin) = 40)
  /\ get_period_comparison Sample.doubling 2023 2021 = None.
Proof.
  destruct (get_period_comparison_spec Sample.doubling 2023 2022) as [_ Hboth].
  destruct (get_period_comparison_spec Sample.doubling 2023 2021) as [Hnone _].
  split.
  - destruct Hboth as [c [Hc [Hr [_ [Hg _]]]]]; try discriminate.
    exists c. split; [exact Hc |]. rewrite Hr, Hg. split; reflexivity.
  - apply Hnone. right. reflexivity.
Defined.

(** ** scenario_analysis *)

Import Forecasting.

(** C9: on a frame with at least one row every entry of the scenario table,
    the default one or the caller's, gives one row, in the table's order:
    the revenue is the latest monthly revenue times 12 times [1 + growth],
    the margin is the latest net margin (a percentage) over 100 plus
    [margin_change], and the net income is their product.  With a latest
    monthly revenue of 100,000 and a net margin of 20 the default base
    scenario gives 1,320,000 and 264,000. *)
Theorem scenario_analysis_spec (df : DataFrame) (latest : Period)
    (table : option ScenarioTable) :
  scenario_analysis (df ++ [latest]) table
  = Ok (map (fun entry =>
               let projected_revenue :=
                 latest.(revenue) * 12 * (1 + (snd entry).(growth)) in
               let projected_margin :=
                 latest.(net_margin) / 100 + (snd entry).(margin_change) in
               {| scenario := fst entry;
                  s_revenue := projected_revenue;
                  s_growth_rate := (snd entry).(growth) * 100;
                  s_net_margin := projected_margin * 100;
                  s_net_income := projected_revenue * projected_margin |})
            (match table with
             | None => default_scenarios
             | Some t => t
             end))
  /\ (latest.(revenue) = 100000 -> latest.(net_margin) = 20 ->
      exists low high,
        scenario_analysis (df ++ [latest]) None
        = Ok [ low;
               {| scenario := "base";
                  s_revenue := 1320000;
                  s_growth_rate := 10;
                  s_net_margin := 20;
                  s_net_income := 264000 |};
               high ]).
Proof.
  unfold scenario_analysis.
  rewrite !iloc_last_map. cbn [bind Ok]. split; [reflexivity |].
  intros -> ->. eexists. eexists. vm_compute. reflexivity.
Qed.

(** The literal case, and a caller's table with a scenario of its own. *)
Lemma scenario_analysis_spec_witness :
  (exists low high,
      scenario_analysis Sample.hundred_thousand None
      = Ok [ low;
             {| scenario := "base";
                s_revenue := 1320000;
                s_growth_rate := 10;
                s_net_margin := 20;
                s_net_income := 264000 |};
             high ])
  /\ scenario_analysis Sample.hundred_thousand
       (Some [("boom"%string, {| growth := 1; margin_change := 0 |})])
     = Ok [ {| scenario := "boom";
               s_revenue := 2400000;
               s_growth_rate := 100;
               s_net_margin := 20;
               s_net_income := 480000 |} ].
Proof.
  pose (latest := DataLoader.add_columns
          (Sample.month (Sample.jan 2023) 100000 40000 30000 100 20000)).
  split.
  - destruct (scenario_analysis_spec [] latest None) as [_ Hbase].
    apply Hbase; reflexivity.
  - destruct (scenario_analysis_spec [] latest
                (Some [("boom"%string, {| growth := 1; margin_change := 0 |})]))
      as [Hrows _].
    etransitivity; [exact Hrows |]. vm_compute. reflexivity.
Defined.

(** Without rows there is no latest revenue to project. *)
Example scenario_analysis_empty (table : option ScenarioTable) :
  scenario_analysis [] table = Raise IndexError.
Proof. reflexivity. Qed.

(** ** Grouping by year *)

Lemma insert_key_in (y z : Z) (ys : list Z) :
  In z (insert_key y ys) <-> z = y \/ In z ys.
Proof.
  induction ys as [| x rest IH]; simpl.
  - intuition.
  - destruct (y <? x)%Z eqn:Hlt; [simpl; intuition |].
    destruct (y =? x)%Z eqn:Heq.
    + apply Z.eqb_eq in Heq. subst x. simpl. intuition.
    + simpl. rewrite IH. intuition.
Qed.

Lemma insert_key_sorted (y : Z) (ys : list Z) :
  StronglySorted Z.lt ys -> StronglySorted Z.lt (insert_key y ys).
Proof.
  induction 1 as [| x rest Hsorted IH Hall]; simpl.
  - repeat constructor.
  - destruct (y <? x)%Z eqn:Hlt.
    + apply Z.ltb_lt in Hlt. constructor.
      * now constructor.
      * constructor; [exact Hlt |].
        eapply Forall_impl; [| exact Hall]. intros z Hz. lia.
    + destruct (y =? x)%Z eqn:Heq; [now constructor |].
      apply Z.ltb_ge in Hlt. apply Z.eqb_neq in Heq.
      constructor; [exact IH |].
      apply Forall_forall. intros z Hz.
      apply insert_key_in in Hz. destruct Hz as [-> | Hz]; [lia |].
      rewrite Forall_forall in Hall. now apply Hall.
Qed.

Lemma insert_key_cons (y : Z) (ys : list Z) :
  exists k ks, insert_key y ys = k :: ks.
Proof.
  destruct ys as [| x rest]; simpl; [now eexists; eexists |].
  destruct (y <? x)%Z; [now eexists; eexists |].
  destruct (y =? x)%Z; now eexists; eexists.
Qed.

Lemma group_keys_sorted (df : DataFrame) : StronglySorted Z.lt (group_keys df).
Proof.
  unfold group_keys. induction df as [| p rest IH]; simpl.
  - constructor.
  - now apply insert_key_sorted.
Qed.

Lemma group_keys_in (df : DataFrame) (y : Z) :
  In y (group_keys df) <-> In y (map year df).
Proof.
  unfold group_keys. induction df as [| p rest IH]; simpl; [reflexivity |].
  rewrite insert_key_in, IH. intuition.
Qed.

Lemma group_keys_cons (df : DataFrame) :
  df <> [] -> exists k ks, group_keys df = k :: ks.
Proof.
  destruct df as [| p rest]; [now intros H; contradiction H |].
  intros _. unfold group_keys. simpl. apply insert_key_cons.
Qed.

(** Every year that is listed has rows. *)
Lemma group_keys_rows (df : DataFrame) (y : Z) :
  In y (group_keys df) -> DataLoader.rows_of_year df y <> [].
Proof.
  rewrite group_keys_in, in_map_iff. intros [p [Hy Hp]] Hnil.
  assert (Hin : In p (DataLoader.rows_of_year df y)).
  { apply filter_In. split; [exact Hp |]. now apply Z.eqb_eq. }
  rewrite Hnil in Hin. exact Hin.
Qed.

(** ** calculate_annual_summary *)

Lemma changes_length (prev : float) (xs : list float) :
  List.length (Np.changes prev xs) = List.length xs.
Proof.
  revert prev. induction xs as [| x rest IH]; intros prev; simpl;
    [reflexivity | now rewrite IH].
Qed.

Lemma pct_growth_length (xs : list float) :
  List.length (pct_growth xs) = List.length xs.
Proof.
  unfold pct_growth. rewrite length_map.
  destruct xs as [| x rest]; simpl; [reflexivity | now rewrite changes_length].
Qed.

Lemma map_fst_combine_same {A B : Type} (xs : list A) (ys : list B) :
  List.length xs = List.length ys -> map fst (combine xs ys) = xs.
Proof.
  revert ys. induction xs as [| x rest IH]; intros [| y ys] H; simpl in *;
    try reflexivity; try discriminate.
  f_equal. apply IH. now injection H.
Qed.

(** The rows of the summary are the aggregated rows, one per year, with the
    two growth columns set. *)
Lemma calculate_annual_summary_rows (df : DataFrame) :
  map (fun r => (r.(a_year), r.(a_revenue), r.(a_net_income)))
      (calculate_annual_summary df)
  = map (fun y => let a := annual_row df y in
                  (a.(a_year), a.(a_revenue), a.(a_net_income)))
        (group_keys df).
Proof.
  unfold calculate_annual_summary.
  set (annual := map (annual_row df) (group_keys df)).
  set (growth := combine (pct_growth _) (pct_growth _)).
  rewrite map_map.
  rewrite (map_ext _ (fun rg : AnnualRow * (float * float) =>
                        (fun a => (a_year a, a_revenue a, a_net_income a))
                          (fst rg))) by reflexivity.
  rewrite <- (map_map fst (fun a => (a_year a, a_revenue a, a_net_income a))).
  rewrite map_fst_combine_same.
  - unfold annual. now rewrite map_map.
  - unfold growth. rewrite length_combine, !pct_growth_length, !length_map.
    unfold annual. rewrite length_map. lia.
Qed.

Lemma calculate_annual_summary_in (df : DataFrame) (r : AnnualRow) :
  In r (calculate_annual_summary df) ->
  exists y growth, In y (group_keys df)
                   /\ r = set_growth (annual_row df y) growth.
Proof.
  unfold calculate_annual_summary. intros H.
  apply in_map_iff in H. destruct H as [[a growth] [<- Hin]].
  apply in_combine_l in Hin. apply in_map_iff in Hin.
  destruct Hin as [y [<- Hy]]. now exists y, growth.
Qed.

(** C6: the annual summary has one row per year of the frame, in increasing
    order of the years.  In each row the five flows are the sums over that
    year's rows, the three stocks are the last values of that year, and the
    margins are computed from the summed flows and rounded to 2 decimals.
    On a frame with at least one row the first row's growth columns are NaN. *)
Theorem calculate_annual_summary_spec (df : DataFrame) :
  let rows := calculate_annual_summary df in
  map a_year rows = group_keys df
  /\ StronglySorted Z.lt (map a_year rows)
  /\ (forall y, In y (map a_year rows) <-> In y (map year df))
  /\ Forall (fun r =>
       let g := DataLoader.rows_of_year df r.(a_year) in
       g <> []
       /\ r.(a_revenue) = Np.sum (map revenue g)
       /\ r.(a_gross_profit) = Np.sum (map gross_profit g)
       /\ r.(a_operating_income) = Np.sum (map operating_income g)
       /\ r.(a_net_income) = Np.sum (map net_income g)
       /\ r.(a_ebitda) = Np.sum (map ebitda g)
       /\ r.(a_total_assets) = Np.last (map total_assets g)
       /\ r.(a_total_equity) = Np.last (map total_equity g)
       /\ r.(a_cash) = Np.last (map cash g)
       /\ r.(a_gross_margin)
          = Np.round2 (Np.sum (map gross_profit g)
                       / Np.sum (map revenue g) * 100)
       /\ r.(a_operating_margin)
          = Np.round2 (Np.sum (map operating_income g)
                       / Np.sum (map revenue g) * 100)
       /\ r.(a_net_margin)
          = Np.round2 (Np.sum (map net_income g)
                       / Np.sum (map revenue g) * 100)) rows
  /\ (df <> [] ->
      exists first rest,
        rows = first :: rest
        /\ first.(a_revenue_growth) = nan
        /\ first.(a_net_income_growth) = nan).
Proof.
  intros rows.
  assert (Hyears : map a_year rows = group_keys df).
  { pose proof (calculate_annual_summary_rows df) as H.
    apply (f_equal (map (fun t : Z * float * float => fst (fst t)))) in H.
    rewrite !map_map in H. cbn [fst annual_row a_year] in H.
    rewrite map_id in H. exact H. }
  split; [exact Hyears |]. rewrite Hyears.
  split; [apply group_keys_sorted |].
  split; [intros y; apply group_keys_in |].
  split.
  - apply Forall_forall. intros r Hr.
    apply calculate_annual_summary_in in Hr.
    destruct Hr as [y [growth [Hy ->]]].
    cbn. repeat split. now apply group_keys_rows.
  - intros Hne. destruct (group_keys_cons df Hne) as [k [ks Hk]].
    unfold rows, calculate_annual_summary. rewrite Hk. cbn.
    eexists. eexists. split; [reflexivity |]. split; reflexivity.
Qed.

(** One year of two unequal months: the year's gross margin is the margin of
    the summed flows, 46%, and not the average of the monthly margins, 30%;
    its growth columns are NaN. *)
Lemma calculate_annual_summary_spec_witness :
  exists first,
    calculate_annual_summary Sample.uneven_year = [first]
    /\ first.(a_gross_margin) = 46
    /\ Np.mean (map gross_margin Sample.uneven_year) = 30
    /\ first.(a_revenue_growth) = nan
    /\ first.(a_net_income_growth) = nan.
Proof.
  destruct (calculate_annual_summary_spec Sample.uneven_year)
    as [_ [_ [_ [_ Hfirst]]]].
  destruct Hfirst as [first [rest [Hrows [Hrev Hni]]]]; [discriminate |].
  exists first.
  assert (Hv : calculate_annual_summary Sample.uneven_year
               = [set_growth (annual_row Sample.uneven_year 2023) (nan, nan)])
    by (vm_compute; reflexivity).
  rewrite Hv in Hrows. injection Hrows as <- <-.
  repeat split; vm_compute; reflexivity.
Defined.

(** ** forecast_revenue *)

Lemma date_range_after_ok (df : DataFrame) (latest : Period) (periods : nat) :
  exists dates, date_range_after (df ++ [latest]) periods = Ok dates
                /\ List.length dates = periods.
Proof.
  unfold date_range_after. rewrite map_app. simpl map.
  destruct (map date df ++ [date latest]) as [| d ds] eqn:Hd.
  - now destruct (map date df).
  - eexists. split; [reflexivity |]. now rewrite length_map, length_seq.
Qed.

Lemma nth_error_zip_with {A B C : Type} (f : A -> B -> C)
    (xs : list A) (ys : list B) (i : nat) (x : A) (y : B) :
  nth_error xs i = Some x -> nth_error ys i = Some y ->
  nth_error (zip_with f xs ys) i = Some (f x y).
Proof.
  unfold zip_with. revert xs ys.
  induction i as [| i IH]; intros [| x' xs] [| y' ys]; simpl;
    try discriminate.
  - intros [= ->] [= ->]. reflexivity.
  - apply IH.
Qed.

Lemma zip_with_length {A B C : Type} (f : A -> B -> C)
    (xs : list A) (ys : list B) :
  List.length xs = List.length ys ->
  List.length (zip_with f xs ys) = List.length xs.
Proof.
  intros H. unfold zip_with. rewrite length_map, length_combine. lia.
Qed.

Lemma nth_error_map_seq {A : Type} (g : nat -> A) (n i : nat) :
  (i < n)%nat -> nth_error (map g (seq 0 n)) i = Some (g i).
Proof.
  intros H. rewrite nth_error_map, nth_error_seq.
  apply Nat.ltb_lt in H. rewrite H. reflexivity.
Qed.

Lemma nth_error_some {A : Type} (xs : list A) (i : nat) :
  (i < List.length xs)%nat -> exists x, nth_error xs i = Some x.
Proof.
  intros H. destruct (nth_error xs i) as [x |] eqn:Hx; [now exists x |].
  apply nth_error_None in Hx. lia.
Qed.

(** The fallback on a frame with at least one row. *)
Lemma simple_forecast_ok (pow : float -> float -> float) (df : DataFrame)
    (latest : Period) (metric : Period -> float) (periods : nat) :
  let growth_rate := Np.mean (Np.pct_change (map metric (df ++ [latest]))) in
  exists r,
    simple_forecast pow (df ++ [latest]) metric periods = Ok r
    /\ List.length r.(forecast_df) = periods
    /\ (forall i, (i < periods)%nat ->
         exists row,
           nth_error r.(forecast_df) i = Some row
           /\ row.(forecast)
              = metric latest * pow (1 + growth_rate) (Np.of_nat (i + 1))
           /\ row.(lower_bound) = row.(forecast) * 0.9
           /\ row.(upper_bound) = row.(forecast) * 1.1)
    /\ r.(mae) = 0 /\ r.(mape) = 0 /\ r.(rmse) = 0
    /\ r.(model_params) = SimpleGrowth.
Proof.
  intros growth_rate. unfold simple_forecast.
  rewrite iloc_last_map. cbn [bind Ok].
  destruct (date_range_after_ok df latest periods) as [dates [-> Hlen]].
  eexists. split; [reflexivity |]. cbn [forecast_df mae mape rmse model_params].
  split.
  - rewrite zip_with_length; [exact Hlen |].
    now rewrite length_map, length_seq.
  - split; [| repeat split].
    intros i Hi.
    destruct (nth_error_some dates i) as [d Hd]; [lia |].
    eexists. split.
    + apply nth_error_zip_with; [exact Hd |].
      now apply nth_error_map_seq.
    + repeat split.
Qed.

(** C1, as the code has it: on every frame with at least one row for which
    the seasonal fit raises, [forecast_revenue] returns the growth fallback
    and raises nothing.  The growth rate is the mean of the period-over-period
    changes of the revenue, point [i] (from 0) is
    [last_value * (1 + growth_rate) ** (i + 1)], the bounds are the point
    times 0.9 and 1.1, and the three accuracy figures are 0. *)
Theorem forecast_revenue_fallback (pow : float -> float -> float)
    (fit : list (date_t * float) -> option HWModel)
    (df : DataFrame) (latest : Period) (periods : nat) :
  fit (map (fun p => (p.(date), p.(revenue))) (df ++ [latest])) = None ->
  let growth_rate := Np.mean (Np.pct_change (map revenue (df ++ [latest]))) in
  exists r,
    forecast_revenue pow fit (df ++ [latest]) periods = Ok r
    /\ List.length r.(forecast_df) = periods
    /\ (forall i, (i < periods)%nat ->
         exists row,
           nth_error r.(forecast_df) i = Some row
           /\ row.(forecast)
              = latest.(revenue) * pow (1 + growth_rate) (Np.of_nat (i + 1))
           /\ row.(lower_bound) = row.(forecast) * 0.9
           /\ row.(upper_bound) = row.(forecast) * 1.1)
    /\ r.(mae) = 0 /\ r.(mape) = 0 /\ r.(rmse) = 0
    /\ r.(model_params) = SimpleGrowth.
Proof.
  intros Hfit growth_rate.
  unfold forecast_revenue, holt_winters_forecast. rewrite Hfit.
  apply simple_forecast_ok.
Qed.

(** Revenue 1000 then 1250 grows by 25% a month: the first point of the
    fallback is 1250 * 1.25 = 1562.5, between 1406.25 and 1718.75. *)
Lemma forecast_revenue_fallback_witness :
  exists r row,
    forecast_revenue Sample.pow_whole Sample.fit_fails Sample.two_months 3 = Ok r
    /\ nth_error r.(forecast_df) 0 = Some row
    /\ row.(forecast) = 1562.5
    /\ row.(lower_bound) = 1562.5 * 0.9
    /\ r.(mae) = 0 /\ r.(mape) = 0 /\ r.(rmse) = 0.
Proof.
  pose (previous := DataLoader.add_columns
          (Sample.month (Sample.jan 2023) 1000 400 300 100 200)).
  pose (latest := DataLoader.add_columns
          (Sample.month (Sample.first_of 2023 2) 1250 500 350 100 300)).
  destruct (forecast_revenue_fallback Sample.pow_whole Sample.fit_fails
              [previous] latest 3 eq_refl)
    as [r [Hr [_ [Hrows [Hmae [Hmape [Hrmse _]]]]]]].
  destruct (Hrows 0%nat) as [row [Hrow [Hf [Hl _]]]]; [lia |].
  exists r, row. split; [exact Hr |]. split; [exact Hrow |].
  assert (Hv : row.(forecast) = 1562.5)
    by (rewrite Hf; vm_compute; reflexivity).
  split; [exact Hv |]. split; [now rewrite Hl, Hv |].
  now repeat split.
Defined.

(** C1 fails as stated on the frame without rows: the fit fails on it, and
    the fallback raises [IndexError] when it reads the last value. *)
Lemma forecast_revenue_empty_raises :
  Sample.fit_fails [] = None
  /\ forecast_revenue Sample.pow_whole Sample.fit_fails [] 6 = Raise IndexError.
Proof. split; reflexivity. Qed.

(** The same for every power function and every fit. *)
Example forecast_revenue_empty (pow : float -> float -> float)
    (fit : list (date_t * float) -> option HWModel) (periods : nat) :
  forecast_revenue pow fit [] periods = Raise IndexError.
Proof.
  unfold forecast_revenue, holt_winters_forecast. simpl.
  destruct (fit []); reflexivity.
Qed.

(** ** calculate_growth_projections *)




(** * Further properties of the engine *)

(** ** More on floats *)

(** NaN is the only float that differs from itself. *)
Lemma is_nan_inv (x : float) : is_nan x = true -> x = nan.
Proof.
  unfold is_nan. rewrite FloatAxioms.eqb_spec. intros H.
  rewrite <- (SF2Prim_Prim2SF x) at 1.
  destruct (Prim2SF x) as [s | s | | s m e]; try reflexivity;
    exfalso; revert H; unfold SFeqb, SFcompare.
  - discriminate.
  - destruct s; discriminate.
  - rewrite Z.compare_refl, Pos.compare_refl. destruct s; discriminate.
Qed.

(** A float above 0 over 0 is plus infinity. *)
Lemma div_pos_zero (x : float) : (0 <? x) = true -> x / 0 = infinity.
Proof.
  rewrite FloatAxioms.ltb_spec, Prim2SF_zero. intros H.
  pose proof (SF2Prim_Prim2SF (x / 0)) as Hq.
  rewrite FloatAxioms.div_spec, Prim2SF_zero in Hq. rewrite <- Hq.
  destruct (Prim2SF x) as [s | s | | s m e]; try destruct s;
    try discriminate; reflexivity.
Qed.

(** A percentage computed over a zero denominator is not finite after
    rounding. *)
Lemma round2_pct_zero (x y : float) :
  (y =? 0) = true -> is_finite (Np.round2 (x / y * 100)) = false.
Proof.
  intros H.
  destruct (div_zero_special x y H) as [-> | [-> | ->]]; reflexivity.
Qed.

(** ** The ratio functions on frames with and without rows *)

Lemma needs_rows_intro {A : Type} (f : DataFrame -> result A) :
  f [] = Raise IndexError ->
  (forall front latest, exists r, f (front ++ [latest]) = Ok r) ->
  forall df, needs_rows f df.
Proof.
  intros Hempty Hrows df. unfold needs_rows.
  destruct (snoc_cases df) as [-> | [front [latest ->]]].
  - split.
    + intros e. rewrite Hempty. split.
      * unfold Raise. intros [= <-]. now split.
      * now intros [_ ->].
    + split; [intros [r Hr]; rewrite Hempty in Hr; discriminate |].
      intros H. now contradiction H.
  - destruct (Hrows front latest) as [r Hr].
    assert (Hne : front ++ [latest] <> []) by (now destruct front).
    split.
    + intros e. rewrite Hr. split; [discriminate |].
      intros [H _]. now contradiction Hne.
    + split; [intros _; exact Hne | intros _; now exists r].
Qed.

(** X1: each ratio function, the health indicators and the scenario
    analysis raise exactly on the frame without rows, and what they raise
    there is [IndexError]; on every other frame they return their result,
    whatever the figures are. *)
Theorem ratio_functions_raise_iff_empty (str_of_float : float -> string)
    (table : option Forecasting.ScenarioTable) (df : DataFrame) :
  needs_rows calculate_liquidity_ratios df
  /\ needs_rows calculate_efficiency_ratios df
  /\ needs_rows calculate_leverage_ratios df
  /\ needs_rows calculate_profitability_ratios df
  /\ needs_rows (get_health_indicators str_of_float) df
  /\ needs_rows (fun d => Forecasting.scenario_analysis d table) df.
Proof.
  repeat match goal with |- _ /\ _ => split end;
    (apply needs_rows_intro;
     [ reflexivity
     | intros front latest;
       unfold get_health_indicators, calculate_liquidity_ratios,
         calculate_efficiency_ratios, calculate_leverage_ratios,
         calculate_profitability_ratios, Forecasting.scenario_analysis;
       rewrite ?iloc_last_map, ?iloc_last_app; eexists; reflexivity ]).
Qed.

(** ** calculate_efficiency_ratios *)

(** X2: a balance-sheet figure of 0 under a positive annualized flow is not
    reported as an error: the turnover comes back as plus infinity and the
    days figure computed from it as 0. *)
Theorem efficiency_zero_denominator (df : DataFrame) (latest : Period) :
  exists r,
    calculate_efficiency_ratios (df ++ [latest]) = Ok r
    /\ (latest.(inventory) = 0 -> (0 <? latest.(cogs) * 12) = true ->
        r.(inventory_turnover) = infinity /\ r.(dio) = 0)
    /\ (latest.(accounts_receivable) = 0 ->
        (0 <? latest.(revenue) * 12) = true ->
        r.(receivables_turnover) = infinity /\ r.(dso) = 0)
    /\ (latest.(accounts_payable) = 0 -> (0 <? latest.(cogs) * 12) = true ->
        r.(dpo) = 0).
Proof.
  unfold calculate_efficiency_ratios. rewrite iloc_last_app.
  eexists. split; [reflexivity |].
  cbn [inventory_turnover dio receivables_turnover dso dpo].
  repeat match goal with |- _ /\ _ => split end;
    intros Hz Hpos; rewrite Hz, (div_pos_zero _ Hpos); repeat split.
Qed.

(** Without inventory and with a cost of goods sold of 600 a month, the
    inventory turnover is infinite and the days of inventory are 0. *)
Lemma efficiency_zero_denominator_witness :
  exists r,
    calculate_efficiency_ratios Sample.no_inventory = Ok r
    /\ r.(inventory_turnover) = infinity /\ r.(dio) = 0.
Proof.
  pose (latest := DataLoader.add_columns
          (Sample.with_liquidity 1500 1000 0 400
             (Sample.month (Sample.jan 2023) 1000 400 300 100 200))).
  destruct (efficiency_zero_denominator [] latest) as [r [Hr [Hinv _]]].
  exists r. split; [exact Hr |]. apply Hinv; reflexivity.
Defined.

(** ** The grading of the health indicators *)

(** X3: an indicator whose number is undefined (NaN) is graded
    ["Critical"], for each of the six indicators: every comparison with NaN
    is false, whichever way the threshold points. *)
Theorem undefined_indicator_is_critical (str_of_float : float -> string)
    (df : DataFrame) (latest : Period) :
  exists inds,
    get_health_indicators str_of_float (df ++ [latest]) = Ok inds
    /\ Forall (fun ind =>
                 forall v, ind.(value) = Number v -> is_nan v = true ->
                           ind.(status) = "Critical"%string) inds
    /\ (is_nan (Np.round2 ((latest.(net_income) * 12)
                           / latest.(total_equity) * 100)) = true ->
        nth_error (map status inds) 4 = Some "Critical"%string)
    /\ (is_nan latest.(net_margin) = true ->
        nth_error (map status inds) 5 = Some "Critical"%string).
Proof.
  unfold get_health_indicators, calculate_liquidity_ratios,
    calculate_leverage_ratios, calculate_profitability_ratios.
  rewrite iloc_last_app. cbn [bind Ok].
  eexists. split; [reflexivity |].
  cbn [current_ratio quick_ratio debt_to_equity interest_coverage roe
       p_net_margin].
  split; [| split].
  - repeat constructor; cbn [value status]; intros v Hv Hnan;
      try discriminate; injection Hv as Hv; rewrite Hv;
      rewrite (is_nan_inv v Hnan); reflexivity.
  - intros Hnan. cbn [map nth_error status].
    rewrite (is_nan_inv _ Hnan). reflexivity.
  - intros Hnan. cbn [map nth_error status].
    rewrite (is_nan_inv _ Hnan). reflexivity.
Qed.

(** A month of zeros: the debt-to-equity ratio, the return on equity and the
    net margin are 0/0, and all three are graded ["Critical"]. *)
Lemma undefined_indicator_is_critical_witness :
  exists inds,
    get_health_indicators (fun _ => "nan"%string)
      (DataLoader.load_financial_data [Sample.blank_month]) = Ok inds
    /\ nth_error (map status inds) 2 = Some "Critical"%string
    /\ nth_error (map status inds) 4 = Some "Critical"%string
    /\ nth_error (map status inds) 5 = Some "Critical"%string.
Proof.
  pose (latest := DataLoader.add_columns Sample.blank_month).
  destruct (undefined_indicator_is_critical (fun _ => "nan"%string) [] latest)
    as [inds [Hinds [Hnum [Hroe Hnm]]]].
  exists inds. split; [exact Hinds |].
  split; [| split; [apply Hroe; reflexivity | apply Hnm; reflexivity]].
  assert (Hv : get_health_indicators (fun _ => "nan"%string) [latest]
               = Ok inds) by exact Hinds.
  vm_compute in Hv. injection Hv as <-. reflexivity.
Defined.

(** X4: with current liabilities of 0 and positive current assets the
    current ratio is plus infinity, and the indicator shows it graded
    ["Good"]. *)
Theorem no_current_liabilities_is_good (str_of_float : float -> string)
    (df : DataFrame) (latest : Period) :
  latest.(current_liabilities) = 0 ->
  (0 <? latest.(current_assets)) = true ->
  exists first rest,
    get_health_indicators str_of_float (df ++ [latest]) = Ok (first :: rest)
    /\ first.(metric) = "Current Ratio"%string
    /\ first.(value) = Number infinity
    /\ first.(status) = "Good"%string.
Proof.
  intros Hz Hpos.
  unfold get_health_indicators, calculate_liquidity_ratios,
    calculate_leverage_ratios, calculate_profitability_ratios.
  rewrite iloc_last_app. cbn [bind Ok].
  eexists. eexists. split; [reflexivity |].
  cbn [metric value status current_ratio].
  rewrite Hz, (div_pos_zero _ Hpos). repeat split.
Qed.

Lemma no_current_liabilities_is_good_witness :
  exists first rest,
    get_health_indicators (fun _ => "nan"%string) Sample.no_current_liabilities
    = Ok (first :: rest)
    /\ first.(value) = Number infinity
    /\ first.(status) = "Good"%string.
Proof.
  pose (latest := DataLoader.add_columns
          (Sample.with_liquidity 1 0 0 0
             (Sample.month (Sample.jan 2023) 1000 400 300 100 200))).
  destruct (no_current_liabilities_is_good (fun _ => "nan"%string) [] latest
              eq_refl eq_refl) as [first [rest [H [_ [Hv Hs]]]]].
  exists first, rest. split; [exact H |]. now split.
Defined.

(** ** filter_by_period and get_ytd_data *)

Lemma filter_if_in (arg : option Z) (column : Period -> Z) (df : DataFrame)
    (p : Period) :
  In p (filter_if arg column df)
  <-> In p df /\ (truthy arg = true -> arg = Some (column p)).
Proof.
  unfold filter_if. destruct arg as [v |]; [| simpl; intuition discriminate].
  destruct (truthy (Some v)) eqn:Ht.
  - rewrite filter_In, Z.eqb_eq. split.
    + intros [Hin ->]. now split.
    + intros [Hin Hv]. split; [exact Hin |].
      specialize (Hv eq_refl). now injection Hv.
  - intuition discriminate.
Qed.

Lemma filter_if_is_filter (arg : option Z) (column : Period -> Z)
    (df : DataFrame) :
  exists keep, filter_if arg column df = filter keep df.
Proof.
  unfold filter_if. destruct arg as [v |].
  - destruct (truthy (Some v)); [now eexists |].
    exists (fun _ => true). symmetry. apply forallb_filter_id.
    now apply forallb_forall.
  - exists (fun _ => true). symmetry. apply forallb_filter_id.
    now apply forallb_forall.
Qed.

Lemma filter_filter {A : Type} (f g : A -> bool) (xs : list A) :
  filter f (filter g xs) = filter (fun x => g x && f x) xs.
Proof.
  induction xs as [| x rest IH]; simpl; [reflexivity |].
  destruct (g x); simpl; [destruct (f x) |]; now rewrite IH.
Qed.

Lemma filter_comm {A : Type} (f g : A -> bool) (xs : list A) :
  filter f (filter g xs) = filter g (filter f xs).
Proof.
  rewrite !filter_filter. apply filter_ext. intros x. apply andb_comm.
Qed.

Lemma filter_idem {A : Type} (f : A -> bool) (xs : list A) :
  filter f (filter f xs) = filter f xs.
Proof.
  rewrite filter_filter. apply filter_ext. intros x. now destruct (f x).
Qed.

Lemma filter_if_comm (a b : option Z) (ca cb : Period -> Z) (df : DataFrame) :
  filter_if a ca (filter_if b cb df) = filter_if b cb (filter_if a ca df).
Proof.
  unfold filter_if.
  destruct a as [va |], b as [vb |]; try reflexivity.
  destruct (truthy (Some va)), (truthy (Some vb)); try reflexivity.
  apply filter_comm.
Qed.

Lemma filter_if_idem (a : option Z) (ca : Period -> Z) (df : DataFrame) :
  filter_if a ca (filter_if a ca df) = filter_if a ca df.
Proof.
  unfold filter_if. destruct a as [va |]; [| reflexivity].
  destruct (truthy (Some va)); [apply filter_idem | reflexivity].
Qed.

(** X5: [filter_by_period] keeps, in their order, exactly the rows that
    match each argument that is true in Python's sense; an argument of
    [None] or of 0 filters nothing, so year 0 selects every row and not the
    rows of year 0. *)
Theorem filter_by_period_spec (df : DataFrame) (year_arg quarter_arg : option Z) :
  (forall p,
      In p (filter_by_period df year_arg quarter_arg)
      <-> In p df
          /\ (truthy year_arg = true -> year_arg = Some p.(year))
          /\ (truthy quarter_arg = true -> quarter_arg = Some p.(quarter)))
  /\ (exists keep, filter_by_period df year_arg quarter_arg = filter keep df)
  /\ filter_by_period df (Some 0%Z) quarter_arg
     = filter_by_period df None quarter_arg
  /\ filter_by_period df year_arg (Some 0%Z)
     = filter_by_period df year_arg None
  /\ filter_by_period df None None = df.
Proof.
  split; [| split; [| repeat split]].
  - intros p. unfold filter_by_period. rewrite !filter_if_in. tauto.
  - unfold filter_by_period.
    destruct (filter_if_is_filter year_arg year df) as [f ->].
    destruct (filter_if_is_filter quarter_arg quarter (filter f df)) as [g ->].
    rewrite filter_filter. now eexists.
Qed.

(** X6: filtering twice with the same arguments changes nothing more, the
    year and the quarter may be applied one after the other in either order,
    and for a year other than 0 [filter_by_period] without a quarter is
    [get_ytd_data]. *)
Theorem filter_by_period_compose (df : DataFrame) (year_arg quarter_arg : option Z) :
  filter_by_period (filter_by_period df year_arg quarter_arg)
                   year_arg quarter_arg
  = filter_by_period df year_arg quarter_arg
  /\ filter_by_period (filter_by_period df None quarter_arg) year_arg None
     = filter_by_period df year_arg quarter_arg
  /\ filter_by_period (filter_by_period df year_arg None) None quarter_arg
     = filter_by_period df year_arg quarter_arg
  /\ (forall y, y <> 0%Z -> filter_by_period df (Some y) None = get_ytd_data df y).
Proof.
  unfold filter_by_period. repeat split.
  - rewrite (filter_if_comm year_arg quarter_arg year quarter
               (filter_if year_arg year df)).
    now rewrite !filter_if_idem.
  - simpl. apply filter_if_comm.
  - intros y Hy. unfold filter_if, truthy, get_ytd_data.
    apply Z.eqb_neq in Hy. now rewrite Hy.
Qed.

Lemma filter_by_period_compose_witness :
  filter_by_period Sample.doubling (Some 2023%Z) None
  = get_ytd_data Sample.doubling 2023
  /\ List.length (get_ytd_data Sample.doubling 2023) = 1%nat
  /\ List.length (filter_by_period Sample.doubling (Some 0%Z) None) = 2%nat.
Proof.
  destruct (filter_by_period_compose Sample.doubling (Some 2023%Z) None)
    as [_ [_ [_ H]]].
  split; [apply H; discriminate |]. split; reflexivity.
Defined.

(** ** get_years *)

Lemma unique_acc_spec (xs seen : list Z) :
  NoDup seen ->
  let r := fold_left (fun seen x =>
                        if existsb (Z.eqb x) seen then seen else seen ++ [x])
                     xs seen in
  NoDup r /\ (forall z, In z r <-> In z seen \/ In z xs).
Proof.
  revert seen. induction xs as [| x rest IH]; intros seen Hnd; simpl.
  - split; [exact Hnd | intuition].
  - destruct (existsb (Z.eqb x) seen) eqn:Hex.
    + destruct (IH seen Hnd) as [Hr Hin]. split; [exact Hr |].
      intros z. rewrite Hin.
      apply existsb_exists in Hex. destruct Hex as [w [Hw Heq]].
      apply Z.eqb_eq in Heq. subst w. intuition (subst; auto).
    + assert (Hnot : ~ In x seen).
      { intros Hin. assert (existsb (Z.eqb x) seen = true) as Ht.
        { apply existsb_exists. exists x. split; [exact Hin | apply Z.eqb_refl]. }
        rewrite Ht in Hex. discriminate. }
      assert (Hnd' : NoDup (seen ++ [x])).
      { apply NoDup_app; [exact Hnd | repeat constructor; intros [] |].
        intros z Hz [<- | []]. now apply Hnot. }
      destruct (IH (seen ++ [x]) Hnd') as [Hr Hin]. split; [exact Hr |].
      intros z. rewrite Hin, in_app_iff. simpl. intuition.
Qed.

Lemma unique_spec (xs : list Z) :
  NoDup (unique xs) /\ (forall z, In z (unique xs) <-> In z xs).
Proof.
  destruct (unique_acc_spec xs [] (NoDup_nil Z)) as [Hnd Hin].
  split; [exact Hnd |]. intros z. unfold unique. rewrite Hin. simpl. tauto.
Qed.

Lemma insert_sorted_in (x z : Z) (ys : list Z) :
  In z (insert_sorted x ys) <-> z = x \/ In z ys.
Proof.
  induction ys as [| y rest IH]; simpl; [intuition |].
  destruct (x <=? y)%Z; simpl; [intuition |]. rewrite IH. intuition.
Qed.

Lemma insert_sorted_lt (x : Z) (ys : list Z) :
  StronglySorted Z.lt ys -> ~ In x ys ->
  StronglySorted Z.lt (insert_sorted x ys).
Proof.
  induction 1 as [| y rest Hsorted IH Hall]; intros Hnot; simpl.
  - repeat constructor.
  - assert (Hxy : x <> y) by (intros ->; apply Hnot; now left).
    assert (Hrest : ~ In x rest) by (intros H; apply Hnot; now right).
    destruct (x <=? y)%Z eqn:Hle.
    + apply Z.leb_le in Hle. constructor; [now constructor |].
      constructor; [lia |].
      eapply Forall_impl; [| exact Hall]. intros z Hz. lia.
    + apply Z.leb_gt in Hle. constructor; [now apply IH |].
      apply Forall_forall. intros z Hz.
      apply insert_sorted_in in Hz. destruct Hz as [-> | Hz]; [lia |].
      rewrite Forall_forall in Hall. now apply Hall.
Qed.

Lemma sorted_spec (xs : list Z) :
  NoDup xs ->
  StronglySorted Z.lt (sorted xs) /\ (forall z, In z (sorted xs) <-> In z xs).
Proof.
  induction 1 as [| x rest Hnot Hnd [IHs IHin]]; simpl.
  - split; [constructor | reflexivity].
  - split.
    + apply insert_sorted_lt; [exact IHs |]. now rewrite IHin.
    + intros z. rewrite insert_sorted_in, IHin. intuition.
Qed.

(** Two strictly increasing lists with the same members are the same list. *)
Lemma strictly_sorted_ext (l1 l2 : list Z) :
  StronglySorted Z.lt l1 -> StronglySorted Z.lt l2 ->
  (forall z, In z l1 <-> In z l2) -> l1 = l2.
Proof.
  intros H1. revert l2.
  induction H1 as [| x r1 Hs1 IH Hall1]; intros l2 H2 Hsame.
  - destruct l2 as [| y r2]; [reflexivity |].
    exfalso. apply (proj2 (Hsame y)). now left.
  - destruct H2 as [| y r2 Hs2 Hall2].
    + exfalso. apply (proj1 (Hsame x)). now left.
    + rewrite Forall_forall in Hall1, Hall2.
      assert (Hxy : x = y).
      { destruct (proj1 (Hsame x) (or_introl eq_refl)) as [Hy | Hy];
          [now symmetry |].
        destruct (proj2 (Hsame y) (or_introl eq_refl)) as [Hx | Hx];
          [exact Hx |].
        specialize (Hall1 _ Hx). specialize (Hall2 _ Hy). lia. }
      subst y. f_equal. apply IH; [exact Hs2 |].
      intros z. split; intros Hz.
      * destruct (proj1 (Hsame z) (or_intror Hz)) as [Hzx | Hz2]; [| exact Hz2].
        specialize (Hall1 _ Hz). lia.
      * destruct (proj2 (Hsame z) (or_intror Hz)) as [Hzx | Hz1]; [| exact Hz1].
        specialize (Hall2 _ Hz). lia.
Qed.

Lemma get_years_group_keys (df : DataFrame) : get_years df = group_keys df.
Proof.
  unfold get_years.
  destruct (unique_spec (map year df)) as [Hnd Hin].
  destruct (sorted_spec _ Hnd) as [Hs Hsin].
  apply strictly_sorted_ext; [exact Hs | apply group_keys_sorted |].
  intros z. now rewrite Hsin, Hin, group_keys_in.
Qed.

Lemma annual_summary_years (df : DataFrame) :
  map a_year (calculate_annual_summary df) = group_keys df.
Proof.
  pose proof (calculate_annual_summary_rows df) as H.
  apply (f_equal (map (fun t : Z * float * float => fst (fst t)))) in H.
  rewrite !map_map in H. cbn [fst annual_row a_year] in H.
  rewrite map_id in H. exact H.
Qed.

(** X7: [get_years] lists the years of the frame once each, in strictly
    increasing order, and they are the years of the rows of the annual
    summary, in the same order. *)
Theorem get_years_spec (df : DataFrame) :
  StronglySorted Z.lt (get_years df)
  /\ (forall y, In y (get_years df) <-> exists p, In p df /\ p.(year) = y)
  /\ get_years df = map a_year (calculate_annual_summary df).
Proof.
  rewrite annual_summary_years, get_years_group_keys.
  split; [apply group_keys_sorted |]. split; [| reflexivity].
  intros y. rewrite group_keys_in, in_map_iff.
  split; intros [p [H1 H2]]; now exists p.
Qed.

(** X8: [get_period_comparison] returns a comparison, and not the empty
    dictionary, exactly when both years are among [get_years]. *)
Theorem get_period_comparison_defined (df : DataFrame) (year_a year_b : Z) :
  (exists c, get_period_comparison df year_a year_b = Some c)
  <-> In year_a (get_years df) /\ In year_b (get_years df).
Proof.
  rewrite get_years_group_keys.
  assert (Hrows : forall y, rows_of_year df y <> [] <-> In y (group_keys df)).
  { intros y. split; [| apply group_keys_rows].
    intros Hne. apply group_keys_in, in_map_iff.
    destruct (rows_of_year df y) as [| p rest] eqn:Hp; [now contradiction Hne |].
    assert (Hin : In p (rows_of_year df y)) by (rewrite Hp; now left).
    apply filter_In in Hin. destruct Hin as [Hin Hy].
    apply Z.eqb_eq in Hy. now exists p. }
  rewrite <- !Hrows. unfold get_period_comparison.
  destruct (rows_of_year df year_a) as [| a ra];
    destruct (rows_of_year df year_b) as [| b rb]; split;
    try (intros [c Hc]; discriminate);
    try (intros [Ha Hb]; solve [now contradiction Ha | now contradiction Hb]).
  - intros _. split; discriminate.
  - intros _. now eexists.
Qed.

(** X9: for a year taken from [get_years], [calculate_kpis] on the frame
    filtered by that year returns; with a year and a quarter, both other
    than 0, that no row has together, the filtered frame has no rows and
    [calculate_kpis] raises [IndexError]. *)
Theorem calculate_kpis_of_selection (df : DataFrame) (y q : Z) :
  (In y (get_years df) ->
   exists k, calculate_kpis (filter_by_period df (Some y) None) = Ok k)
  /\ (y <> 0%Z -> q <> 0%Z ->
      (forall p, In p df -> p.(year) = y -> p.(quarter) <> q) ->
      calculate_kpis (filter_by_period df (Some y) (Some q)) = Raise IndexError).
Proof.
  split.
  - intros Hy.
    assert (Hne : filter_by_period df (Some y) None <> []).
    { rewrite get_years_group_keys in Hy.
      apply group_keys_in, in_map_iff in Hy. destruct Hy as [p [Hp Hin]].
      intros Hnil.
      assert (Hp' : In p (filter_by_period df (Some y) None)).
      { unfold filter_by_period. rewrite !filter_if_in.
        repeat split; [exact Hin | now intros _; rewrite Hp | discriminate]. }
      rewrite Hnil in Hp'. exact Hp'. }
    destruct (snoc_cases (filter_by_period df (Some y) None))
      as [Hnil | [front [latest ->]]]; [now contradiction Hne |].
    destruct (snoc_cases front) as [-> | [older [previous ->]]].
    + destruct (calculate_kpis_one latest) as [k [Hk _]]. now exists k.
    + rewrite <- app_assoc. simpl app.
      destruct (calculate_kpis_two older previous latest) as [k [Hk _]].
      now exists k.
  - intros Hy Hq Hnone.
    assert (Hnil : filter_by_period df (Some y) (Some q) = []).
    { destruct (filter_by_period df (Some y) (Some q)) as [| p rest] eqn:Hf;
        [reflexivity |].
      assert (Hin : In p (filter_by_period df (Some y) (Some q)))
        by (rewrite Hf; now left).
      unfold filter_by_period in Hin. rewrite !filter_if_in in Hin.
      destruct Hin as [[Hin Hyear] Hquarter].
      assert (Hty : truthy (Some y) = true)
        by (unfold truthy; apply Z.eqb_neq in Hy; now rewrite Hy).
      assert (Htq : truthy (Some q) = true)
        by (unfold truthy; apply Z.eqb_neq in Hq; now rewrite Hq).
      specialize (Hyear Hty). specialize (Hquarter Htq).
      injection Hyear as Hyear. injection Hquarter as Hquarter.
      exfalso. now apply (Hnone p Hin). }
    rewrite Hnil. reflexivity.
Qed.

(** The sample of two years has its only row of 2023 in the first quarter:
    the year alone gives KPIs, the year with the third quarter raises. *)
Lemma calculate_kpis_of_selection_witness :
  (exists k, calculate_kpis (filter_by_period Sample.doubling (Some 2023%Z) None)
             = Ok k)
  /\ calculate_kpis (filter_by_period Sample.doubling (Some 2023%Z) (Some 3%Z))
     = Raise IndexError.
Proof.
  destruct (calculate_kpis_of_selection Sample.doubling 2023 3) as [Hyear Hnone].
  split.
  - apply Hyear. vm_compute. auto.
  - apply Hnone; try discriminate.
    intros p Hin Hy. vm_compute in Hin.
    destruct Hin as [<- | [<- | []]]; vm_compute; discriminate.
Defined.

(** ** merge_actual_budget *)

Lemma merge_actual_budget_in (actual_df : DataFrame) (budget_df : list Budget)
    (m : MergedRow) :
  In m (merge_actual_budget actual_df budget_df)
  <-> exists a b, In a actual_df /\ In b budget_df
                  /\ b.(b_date) = a.(date) /\ m = merged_row a b.
Proof.
  unfold merge_actual_budget. rewrite in_flat_map. split.
  - intros [a [Ha Hm]]. apply in_map_iff in Hm. destruct Hm as [b [<- Hb]].
    apply filter_In in Hb. destruct Hb as [Hb Hd]. apply Z.eqb_eq in Hd.
    now exists a, b.
  - intros [a [b [Ha [Hb [Hd ->]]]]]. exists a. split; [exact Ha |].
    apply in_map, filter_In. split; [exact Hb | now apply Z.eqb_eq].
Qed.

(** X10: the merged frame is the inner join on the date: its rows are
    exactly the pairs of an actual row and a budget row of the same date,
    each with the variance [actual - budget]; an actual row whose date has no
    budget row, and a budget row whose date has no actual row, give no row. *)
Theorem merge_actual_budget_inner_join (actual_df : DataFrame)
    (budget_df : list Budget) :
  (forall m,
      In m (merge_actual_budget actual_df budget_df)
      <-> exists a b, In a actual_df /\ In b budget_df
                      /\ b.(b_date) = a.(date) /\ m = merged_row a b)
  /\ Forall (fun m =>
               m.(m_budget).(b_date) = m.(m_actual).(date)
               /\ m.(revenue_variance)
                  = m.(m_actual).(revenue) - m.(m_budget).(budget_revenue)
               /\ m.(net_income_variance)
                  = m.(m_actual).(net_income) - m.(m_budget).(budget_net_income)
               /\ m.(opex_variance)
                  = m.(m_actual).(operating_expenses)
                    - m.(m_budget).(budget_operating_expenses))
            (merge_actual_budget actual_df budget_df)
  /\ (forall a, In a actual_df ->
                (forall b, In b budget_df -> b.(b_date) <> a.(date)) ->
                forall m, In m (merge_actual_budget actual_df budget_df) ->
                          m.(m_actual).(date) <> a.(date))
  /\ (forall b, In b budget_df ->
                (forall a, In a actual_df -> a.(date) <> b.(b_date)) ->
                forall m, In m (merge_actual_budget actual_df budget_df) ->
                          m.(m_budget).(b_date) <> b.(b_date)).
Proof.
  split; [intros m; apply merge_actual_budget_in |].
  split; [| split].
  - apply Forall_forall. intros m Hm.
    apply merge_actual_budget_in in Hm.
    destruct Hm as [a [b [_ [_ [Hd ->]]]]]. cbn. now repeat split.
  - intros a Ha Hnone m Hm Heq.
    apply merge_actual_budget_in in Hm.
    destruct Hm as [a' [b [_ [Hb [Hd ->]]]]]. cbn in Heq.
    apply (Hnone b Hb). congruence.
  - intros b Hb Hnone m Hm Heq.
    apply merge_actual_budget_in in Hm.
    destruct Hm as [a [b' [Ha [_ [Hd ->]]]]]. cbn in Heq.
    apply (Hnone a Ha). congruence.
Qed.

(** February has no budget: no merged row is dated February, and the two
    other months remain. *)
Lemma merge_actual_budget_inner_join_witness :
  List.length (merge_actual_budget
                 (DataLoader.load_financial_data Sample.shuffled) Sample.budgets)
  = 2%nat
  /\ (forall m,
        In m (merge_actual_budget
                (DataLoader.load_financial_data Sample.shuffled) Sample.budgets) ->
        m.(m_actual).(date) <> (Sample.first_of 2023 2)).
Proof.
  split; [reflexivity |].
  destruct (merge_actual_budget_inner_join
              (DataLoader.load_financial_data Sample.shuffled) Sample.budgets)
    as [_ [_ [Hdropped _]]].
  apply (Hdropped (DataLoader.add_columns
                     (Sample.month (Sample.first_of 2023 2) 200 80 60 10 40))).
  - vm_compute. right. left. reflexivity.
  - intros b Hb. vm_compute in Hb.
    destruct Hb as [<- | [<- | []]]; vm_compute; discriminate.
Defined.

Lemma filter_unique_date (budget_df : list Budget) (d : date_t) :
  NoDup (map b_date budget_df) ->
  (List.length (filter (fun b => (b.(b_date) =? d)%Z) budget_df) <= 1)%nat.
Proof.
  induction budget_df as [| b rest IH]; simpl; [lia |].
  intros Hnd. inversion Hnd as [| x l Hnot Hnd']; subst.
  destruct (b_date b =? d)%Z eqn:Hb; [| now apply IH].
  apply Z.eqb_eq in Hb. simpl.
  assert (Hnil : filter (fun b0 => (b_date b0 =? d)%Z) rest = []).
  { destruct (filter _ rest) as [| c more] eqn:Hf; [reflexivity |].
    assert (Hc : In c (filter (fun b0 => (b_date b0 =? d)%Z) rest))
      by (rewrite Hf; now left).
    apply filter_In in Hc. destruct Hc as [Hc Hd]. apply Z.eqb_eq in Hd.
    exfalso. apply Hnot. rewrite Hb, <- Hd. now apply in_map. }
  rewrite Hnil. simpl. lia.
Qed.

(** X11: when no date repeats in the frame nor in the budget, the merged
    frame has at most one row per actual row; when moreover every actual date
    has a budget, it has the actual rows one for one, in their order. *)
Theorem merge_actual_budget_unique_dates (actual_df : DataFrame)
    (budget_df : list Budget) :
  NoDup (map date actual_df) ->
  NoDup (map b_date budget_df) ->
  (List.length (merge_actual_budget actual_df budget_df)
   <= List.length actual_df)%nat
  /\ ((forall a, In a actual_df -> In a.(date) (map b_date budget_df)) ->
      map m_actual (merge_actual_budget actual_df budget_df) = actual_df).
Proof.
  intros _ Hnd. unfold merge_actual_budget. split.
  - induction actual_df as [| a rest IH]; simpl; [lia |].
    rewrite length_app, length_map.
    pose proof (filter_unique_date budget_df a.(date) Hnd). lia.
  - induction actual_df as [| a rest IH]; simpl; [reflexivity |].
    intros Hall. rewrite map_app, IH by (intros x Hx; apply Hall; now right).
    f_equal.
    assert (Hin : In a.(date) (map b_date budget_df))
      by (apply Hall; now left).
    apply in_map_iff in Hin. destruct Hin as [b [Hd Hb]].
    pose proof (filter_unique_date budget_df a.(date) Hnd) as Hlen.
    destruct (filter (fun b0 => (b_date b0 =? date a)%Z) budget_df)
      as [| c [| c' more]] eqn:Hf.
    + exfalso.
      assert (Hc : In b (filter (fun b0 => (b_date b0 =? date a)%Z) budget_df))
        by (apply filter_In; split; [exact Hb | now apply Z.eqb_eq]).
      rewrite Hf in Hc. exact Hc.
    + reflexivity.
    + simpl in Hlen. lia.
Qed.

(** Three months against budgets for January and March: February is dropped
    and two rows remain. *)
Lemma merge_actual_budget_unique_dates_witness :
  (List.length (merge_actual_budget
                  (DataLoader.load_financial_data Sample.shuffled) Sample.budgets)
   <= 3)%nat
  /\ map (fun m => m.(m_actual).(date))
         (merge_actual_budget
            (DataLoader.load_financial_data Sample.shuffled) Sample.budgets)
     = [Sample.jan 2023; (Sample.first_of 2023 3)].
Proof.
  assert (Hnd : NoDup (map b_date Sample.budgets)).
  { repeat constructor; simpl; intuition discriminate. }
  assert (Hna : NoDup (map date (DataLoader.load_financial_data Sample.shuffled))).
  { repeat constructor; simpl; intuition discriminate. }
  destruct (merge_actual_budget_unique_dates
              (DataLoader.load_financial_data Sample.shuffled)
              Sample.budgets Hna Hnd) as [Hlen _].
  split; [exact Hlen | vm_compute; reflexivity].
Defined.

(** X12: a budget figure of 0 makes the percentage variance of its row an
    infinity or NaN; it is never replaced by 0 or any other finite number. *)
Theorem merge_actual_budget_zero_budget (actual_df : DataFrame)
    (budget_df : list Budget) (m : MergedRow) :
  In m (merge_actual_budget actual_df budget_df) ->
  ((m.(m_budget).(budget_revenue) =? 0) = true ->
   is_finite m.(revenue_variance_pct) = false)
  /\ ((m.(m_budget).(budget_net_income) =? 0) = true ->
      is_finite m.(net_income_variance_pct) = false)
  /\ ((m.(m_budget).(budget_operating_expenses) =? 0) = true ->
      is_finite m.(opex_variance_pct) = false).
Proof.
  intros Hm. apply merge_actual_budget_in in Hm.
  destruct Hm as [a [b [_ [_ [_ ->]]]]]. cbn.
  repeat match goal with |- _ /\ _ => split end;
    intros Hz; now apply round2_pct_zero.
Qed.

(** March has revenue 300 against a budget of 0: its percentage variance is
    plus infinity. *)
Lemma merge_actual_budget_zero_budget_witness :
  exists m,
    nth_error (merge_actual_budget
                 (DataLoader.load_financial_data Sample.shuffled) Sample.budgets) 1
    = Some m
    /\ m.(revenue_variance) = 300
    /\ m.(revenue_variance_pct) = infinity
    /\ is_finite m.(revenue_variance_pct) = false.
Proof.
  eexists. split; [vm_compute; reflexivity |].
  split; [reflexivity |]. split; [reflexivity |].
  match goal with
  | |- is_finite (revenue_variance_pct ?m) = false =>
      apply (merge_actual_budget_zero_budget
               (DataLoader.load_financial_data Sample.shuffled)
               Sample.budgets m)
  end.
  - vm_compute. right. left. reflexivity.
  - reflexivity.
Defined.

(** ** load_financial_data *)

Lemma insert_by_date_perm (r : RawPeriod) (rows : list RawPeriod) :
  Permutation (r :: rows) (insert_by_date r rows).
Proof.
  induction rows as [| x rest IH]; simpl; [reflexivity |].
  destruct (raw_date r <? raw_date x)%Z; [reflexivity |].
  rewrite perm_swap. now apply perm_skip.
Qed.

Lemma insert_by_date_sorted (r : RawPeriod) (rows : list RawPeriod) :
  StronglySorted Z.le (map raw_date rows) ->
  StronglySorted Z.le (map raw_date (insert_by_date r rows)).
Proof.
  induction rows as [| x rest IH]; simpl; intros Hs.
  - repeat constructor.
  - inversion Hs as [| y l Hrest Hall]; subst.
    destruct (raw_date r <? raw_date x)%Z eqn:Hlt; simpl.
    + apply Z.ltb_lt in Hlt. constructor; [exact Hs |].
      constructor; [lia |].
      eapply Forall_impl; [| exact Hall]. intros z Hz. lia.
    + apply Z.ltb_ge in Hlt. constructor; [now apply IH |].
      apply Forall_forall. intros z Hz.
      apply in_map_iff in Hz. destruct Hz as [w [<- Hw]].
      apply (Permutation_in _ (Permutation_sym (insert_by_date_perm r rest)))
        in Hw.
      destruct Hw as [<- | Hw]; [exact Hlt |].
      rewrite Forall_forall in Hall. apply Hall. now apply in_map.
Qed.

Lemma sort_values_date_acc (rows acc : list RawPeriod) :
  StronglySorted Z.le (map raw_date acc) ->
  let r := fold_left (fun acc r => insert_by_date r acc) rows acc in
  StronglySorted Z.le (map raw_date r) /\ Permutation (rows ++ acc) r.
Proof.
  revert acc. induction rows as [| x rest IH]; intros acc Hs; simpl.
  - split; [exact Hs | reflexivity].
  - destruct (IH (insert_by_date x acc) (insert_by_date_sorted x acc Hs))
      as [Hr Hp].
    split; [exact Hr |].
    rewrite <- Hp. rewrite <- insert_by_date_perm.
    now rewrite Permutation_middle.
Qed.

Lemma sort_values_date_spec (rows : list RawPeriod) :
  StronglySorted Z.le (map raw_date (sort_values_date rows))
  /\ Permutation rows (sort_values_date rows).
Proof.
  destruct (sort_values_date_acc rows [] (SSorted_nil Z.le)) as [Hs Hp].
  split; [exact Hs |]. now rewrite app_nil_r in Hp.
Qed.

Lemma sorted_last_is_max (ds : list Z) (d : Z) :
  StronglySorted Z.le (ds ++ [d]) -> forall z, In z (ds ++ [d]) -> (z <= d)%Z.
Proof.
  induction ds as [| x rest IH]; simpl; intros Hs z Hz.
  - destruct Hz as [<- | []]. lia.
  - inversion Hs as [| y l Hrest Hall]; subst.
    destruct Hz as [<- | Hz]; [| now apply IH].
    rewrite Forall_forall in Hall. apply Hall.
    apply in_or_app. right. now left.
Qed.

(** X13: whatever the order of the rows of the file, the loaded frame holds
    the same rows with their derived columns, in ascending order of the date;
    so the KPIs of the loaded frame are those of a row with the latest
    date. *)
Theorem load_financial_data_sorted (rows : list RawPeriod) :
  StronglySorted Z.le (map date (load_financial_data rows))
  /\ Permutation (map add_columns rows) (load_financial_data rows)
  /\ (rows <> [] ->
      exists latest k,
        In latest rows
        /\ (forall r, In r rows -> (r.(raw_date) <= latest.(raw_date))%Z)
        /\ calculate_kpis (load_financial_data rows) = Ok k
        /\ k.(k_total_revenue) = latest.(raw_revenue)
        /\ k.(k_ebitda)
           = latest.(raw_operating_income) + latest.(raw_depreciation)).
Proof.
  destruct (sort_values_date_spec rows) as [Hs Hp].
  unfold load_financial_data.
  assert (Hdates : map date (map add_columns (sort_values_date rows))
                   = map raw_date (sort_values_date rows))
    by (rewrite map_map; reflexivity).
  split; [now rewrite Hdates |].
  split; [now apply Permutation_map |].
  intros Hne.
  destruct (snoc_cases (sort_values_date rows)) as [Hnil | [front [latest Hl]]].
  - exfalso. rewrite Hnil in Hp. apply Permutation_sym, Permutation_nil in Hp.
    now apply Hne.
  - rewrite Hl in Hs, Hp. rewrite Hl.
    assert (Hmax : forall r, In r rows -> (raw_date r <= raw_date latest)%Z).
    { intros r Hr. rewrite map_app in Hs. simpl in Hs.
      apply (sorted_last_is_max _ _ Hs).
      change (In (raw_date r) (map raw_date front ++ map raw_date [latest])).
      rewrite <- map_app.
      apply in_map. now apply (Permutation_in _ Hp). }
    assert (Hin : In latest rows).
    { apply (Permutation_in _ (Permutation_sym Hp)).
      apply in_or_app. right. now left. }
    rewrite map_app. simpl map.
    destruct (snoc_cases (map add_columns front)) as [-> | [older [previous ->]]].
    + destruct (calculate_kpis_one (add_columns latest)) as [k [Hk _]].
      exists latest, k. repeat split; try assumption.
      * simpl in Hk. unfold calculate_kpis in Hk. simpl in Hk.
        injection Hk as <-. reflexivity.
      * simpl in Hk. unfold calculate_kpis in Hk. simpl in Hk.
        injection Hk as <-. reflexivity.
    + rewrite <- app_assoc. simpl app.
      pose proof (calculate_kpis_two older previous (add_columns latest)) as Hk.
      unfold calculate_kpis in Hk |- *.
      replace (older ++ [previous; add_columns latest])
        with ((older ++ [previous]) ++ [add_columns latest]) in Hk |- *
        by (rewrite <- app_assoc; reflexivity).
      rewrite iloc_last_app in Hk |- *.
      rewrite <- app_assoc in Hk |- *. simpl app in Hk |- *.
      cbn [bind Ok] in Hk |- *. rewrite long_frame, iloc_last2_app in Hk |- *.
      cbn [bind Ok] in Hk |- *.
      exists latest. eexists. repeat split; try assumption.
Qed.

(** March, January, February in the file: the loaded frame runs January,
    February, March, and its KPIs are those of March. *)
Lemma load_financial_data_sorted_witness :
  map date (load_financial_data Sample.shuffled)
  = [Sample.jan 2023; (Sample.first_of 2023 2); (Sample.first_of 2023 3)]
  /\ exists k, calculate_kpis (load_financial_data Sample.shuffled) = Ok k
               /\ k.(k_total_revenue) = 300.
Proof.
  destruct (load_financial_data_sorted Sample.shuffled) as [_ [_ Hlatest]].
  destruct Hlatest as [latest [k [Hin [Hmax [Hk [Hrev _]]]]]]; [discriminate |].
  split; [vm_compute; reflexivity |].
  exists k. split; [exact Hk |].
  assert (Hv : calculate_kpis (load_financial_data Sample.shuffled) = Ok k)
    by exact Hk.
  vm_compute in Hv. injection Hv as <-. reflexivity.
Defined.

(** ** The forecast functions *)

Lemma fold_max_spec (ds : list Z) (d : Z) :
  (forall z, In z (d :: ds) -> (z <= fold_left Z.max ds d)%Z)
  /\ In (fold_left Z.max ds d) (d :: ds).
Proof.
  revert d. induction ds as [| x rest IH]; intros d; simpl.
  - split; [intros z [<- | []]; lia | now left].
  - destruct (IH (Z.max d x)) as [Hle Hin]. split.
    + intros z [Hz | [Hz | Hz]].
      * specialize (Hle (Z.max d x) (or_introl eq_refl)). lia.
      * specialize (Hle (Z.max d x) (or_introl eq_refl)). lia.
      * apply Hle. now right.
    + destruct Hin as [Hin | Hin]; [| now right; right].
      rewrite <- Hin. destruct (Z.max_spec d x) as [[_ ->] | [_ ->]]; auto.
Qed.

Lemma map_zip_with_fst {A B C D : Type} (f : A -> B -> C) (g : C -> D)
    (h : A -> D) (xs : list A) (ys : list B) :
  (forall x y, g (f x y) = h x) ->
  List.length xs = List.length ys ->
  map g (zip_with f xs ys) = map h xs.
Proof.
  intros Hg. unfold zip_with. revert ys.
  induction xs as [| x rest IH]; intros [| y ys] Hlen; simpl in *;
    try reflexivity; try discriminate.
  rewrite Hg. f_equal. apply IH. now injection Hlen.
Qed.

Lemma map_snd_combine_same {A B : Type} (xs : list A) (ys : list B) :
  List.length xs = List.length ys -> map snd (combine xs ys) = ys.
Proof.
  revert ys. induction xs as [| x rest IH]; intros [| y ys] H; simpl in *;
    try reflexivity; try discriminate.
  f_equal. apply IH. now injection H.
Qed.

Lemma month_start_after (d : date_t) :
  (d < month_start (month_index d + 1))%Z.
Proof.
  unfold month_start, month_index.
  pose proof (Z.div_mod d 31 ltac:(lia)) as Hd.
  pose proof (Z.mod_pos_bound d 31 ltac:(lia)) as Hm. lia.
Qed.

(** X14: the growth fallback dates its points by consecutive month starts.
    They begin at the month after the latest date of the frame when that
    date is a first of month, and one month later when it is not; either
    way every forecast date is later than every historical date, whatever
    the order of the rows. *)
Theorem simple_forecast_dates (pow : float -> float -> float) (df : DataFrame)
    (latest : Period) (metric : Period -> float) (periods : nat) :
  exists r newest first,
    simple_forecast pow (df ++ [latest]) metric periods = Ok r
    /\ In newest (df ++ [latest])
    /\ (forall p, In p (df ++ [latest]) -> (p.(date) <= newest.(date))%Z)
    /\ first = (if (day_of newest.(date) =? 1)%Z
                then month_index newest.(date) + 1
                else month_index newest.(date) + 2)%Z
    /\ (forall p, In p (df ++ [latest]) -> (p.(date) < month_start first)%Z)
    /\ map f_date r.(forecast_df)
       = map (fun i => month_start (first + Z.of_nat i)) (seq 0 periods)
    /\ map fst r.(historical) = map date (df ++ [latest]).
Proof.
  unfold simple_forecast. rewrite iloc_last_map. cbn [bind Ok].
  unfold date_range_after.
  destruct (map date (df ++ [latest])) as [| d ds] eqn:Hd.
  - exfalso. rewrite map_app in Hd. simpl in Hd. now destruct (map date df).
  - cbn [bind Ok].
    destruct (fold_max_spec ds d) as [Hle Hin].
    assert (Hin' : In (fold_left Z.max ds d) (map date (df ++ [latest])))
      by (rewrite Hd; exact Hin).
    apply in_map_iff in Hin'. destruct Hin' as [newest [Hnew Hin']].
    assert (Hmax : forall p, In p (df ++ [latest]) ->
                             (p.(date) <= newest.(date))%Z).
    { intros p Hp. apply (in_map date) in Hp. rewrite Hd in Hp.
      rewrite Hnew. now apply Hle. }
    eexists. exists newest. eexists.
    split; [reflexivity |]. cbn [forecast_df historical].
    split; [exact Hin' |]. split; [exact Hmax |].
    split; [reflexivity |]. rewrite Hnew. split; [| split].
    + intros p Hp. specialize (Hmax p Hp). rewrite Hnew in Hmax.
      pose proof (month_start_after (fold_left Z.max ds d)) as Hafter.
      unfold month_start in *.
      destruct (day_of (fold_left Z.max ds d) =? 1)%Z; lia.
    + rewrite (map_zip_with_fst _ f_date (fun d => d));
        [apply map_id | reflexivity |].
      now rewrite !length_map.
    + rewrite map_map. cbn [fst]. exact Hd.
Qed.

(** A frame that ends on 31 January 2024: the first forecast date is
    1 March 2024, two months on; a frame that ends on 1 February 2023 is
    followed by 1 March 2023. *)
Lemma simple_forecast_dates_witness :
  (exists r,
      simple_forecast Sample.pow_whole Sample.month_end revenue 2 = Ok r
      /\ map f_date r.(forecast_df)
         = [Sample.first_of 2024 3; Sample.first_of 2024 4])
  /\ (exists r,
         simple_forecast Sample.pow_whole Sample.two_months revenue 2 = Ok r
         /\ map f_date r.(forecast_df)
            = [Sample.first_of 2023 3; Sample.first_of 2023 4]).
Proof.
  pose (previous := DataLoader.add_columns
          (Sample.month (Sample.jan 2023) 1000 400 300 100 200)).
  pose (latest := DataLoader.add_columns
          (Sample.month (Sample.first_of 2023 2) 1250 500 350 100 300)).
  pose (last_day := DataLoader.add_columns
          (Sample.month (Sample.on 2024 1 31) 1000 400 300 100 200)).
  split.
  - destruct (simple_forecast_dates Sample.pow_whole [] last_day revenue 2)
      as [r [newest [first [Hr _]]]].
    exists r. split; [exact Hr |].
    assert (Hv : simple_forecast Sample.pow_whole [last_day] revenue 2 = Ok r)
      by exact Hr.
    vm_compute in Hv. injection Hv as <-. reflexivity.
  - destruct (simple_forecast_dates Sample.pow_whole [previous] latest revenue 2)
      as [r [newest [first [Hr _]]]].
    exists r. split; [exact Hr |].
    assert (Hv : simple_forecast Sample.pow_whole [previous; latest] revenue 2
                 = Ok r) by exact Hr.
    vm_compute in Hv. injection Hv as <-. reflexivity.
Defined.

(** X15: whatever the fitted model does, [forecast_revenue],
    [forecast_metric] and [simple_forecast] raise exactly on the frame
    without rows, where they raise [IndexError]; on a frame with rows a
    failing fit never reaches the caller. *)
Theorem forecasts_raise_iff_empty (pow : float -> float -> float)
    (fit fit_additive : list (date_t * float) -> option HWModel)
    (metric : Period -> float) (periods : nat) (df : DataFrame) :
  needs_rows (fun d => forecast_revenue pow fit d periods) df
  /\ needs_rows (fun d => forecast_metric pow fit_additive d metric periods) df
  /\ needs_rows (fun d => simple_forecast pow d metric periods) df.
Proof.
  repeat match goal with |- _ /\ _ => split end; apply needs_rows_intro.
  - unfold forecast_revenue, holt_winters_forecast. simpl.
    destruct (fit []); reflexivity.
  - intros front latest.
    unfold forecast_revenue, holt_winters_forecast.
    destruct (simple_forecast_ok pow front latest revenue periods)
      as [r [Hr _]].
    destruct (date_range_after_ok front latest periods) as [dates [Hd _]].
    destruct (fit _); [rewrite Hd; cbn [bind Ok]; now eexists |].
    rewrite Hr. now eexists.
  - unfold forecast_metric. simpl. destruct (fit_additive []); reflexivity.
  - intros front latest. unfold forecast_metric.
    destruct (simple_forecast_ok pow front latest metric periods)
      as [r [Hr _]].
    destruct (date_range_after_ok front latest periods) as [dates [Hd _]].
    destruct (fit_additive _); [rewrite Hd; cbn [bind Ok]; now eexists |].
    rewrite Hr. cbn [bind Ok]. now eexists.
  - reflexivity.
  - intros front latest.
    destruct (simple_forecast_ok pow front latest metric periods)
      as [r [Hr _]].
    now exists r.
Qed.

(** X16: when both fits fail on a frame with rows, [forecast_metric] asked
    for the revenue returns the very dictionary [forecast_revenue] returns,
    the growth fallback with its bounds and its zero accuracy figures; when
    its fit succeeds, with one forecast value per period, it returns the
    other dictionary, which holds the model's points and the history and
    neither bounds nor accuracy figures. *)
Theorem forecast_metric_fallback (pow : float -> float -> float)
    (fit fit_additive : list (date_t * float) -> option HWModel)
    (df : DataFrame) (latest : Period) (periods : nat) :
  let series := map (fun p => (p.(date), p.(revenue))) (df ++ [latest]) in
  (fit series = None -> fit_additive series = None ->
   exists r,
     forecast_revenue pow fit (df ++ [latest]) periods = Ok r
     /\ forecast_metric pow fit_additive (df ++ [latest]) revenue periods
        = Ok (Fallback r)
     /\ r.(model_params) = SimpleGrowth)
  /\ (forall model, fit_additive series = Some model ->
      List.length (model.(hw_forecast) periods) = periods ->
      exists m,
        forecast_metric pow fit_additive (df ++ [latest]) revenue periods
        = Ok (Fitted m)
        /\ m.(mf_historical) = series
        /\ map snd m.(mf_forecast_df) = model.(hw_forecast) periods).
Proof.
  intros series. split.
  - intros Hfit Hadd.
    unfold forecast_revenue, holt_winters_forecast, forecast_metric.
    fold series. rewrite Hfit, Hadd.
    destruct (simple_forecast_ok pow df latest revenue periods)
      as [r [Hr [_ [_ [_ [_ [_ Hp]]]]]]].
    rewrite Hr. exists r. now repeat split.
  - intros model Hadd Hlen. unfold forecast_metric. fold series. rewrite Hadd.
    destruct (date_range_after_ok df latest periods) as [dates [Hd Hdates]].
    rewrite Hd. cbn [bind Ok]. eexists. split; [reflexivity |].
    split; [reflexivity |]. cbn [mf_forecast_df].
    apply map_snd_combine_same. now rewrite Hdates, Hlen.
Qed.

Lemma forecast_metric_fallback_witness :
  (exists r,
      forecast_revenue Sample.pow_whole Sample.fit_fails Sample.two_months 3
      = Ok r
      /\ forecast_metric Sample.pow_whole Sample.fit_fails Sample.two_months
           revenue 3
         = Ok (Fallback r))
  /\ (exists m,
         forecast_metric Sample.pow_whole Sample.fit_constant Sample.two_months
           revenue 3
         = Ok (Fitted m)).
Proof.
  pose (previous := DataLoader.add_columns
          (Sample.month (Sample.jan 2023) 1000 400 300 100 200)).
  pose (latest := DataLoader.add_columns
          (Sample.month (Sample.first_of 2023 2) 1250 500 350 100 300)).
  split.
  - destruct (forecast_metric_fallback Sample.pow_whole Sample.fit_fails
                Sample.fit_fails [previous] latest 3) as [Hfall _].
    destruct (Hfall eq_refl eq_refl) as [r [Hr [Hm _]]].
    exists r. split; [exact Hr | exact Hm].
  - destruct (forecast_metric_fallback Sample.pow_whole Sample.fit_fails
                Sample.fit_constant [previous] latest 3) as [_ Hfit].
    destruct (Hfit _ eq_refl eq_refl) as [m [Hm _]].
    exists m. exact Hm.
Defined.

(** ** calculate_growth_projections within one year *)

Lemma group_keys_one_year (df : DataFrame) (y : Z) :
  df <> [] -> (forall p, In p df -> p.(year) = y) -> group_keys df = [y].
Proof.
  unfold group_keys. induction df as [| p rest IH]; intros Hne Hall;
    [now contradiction Hne |].
  simpl. rewrite (Hall p (or_introl eq_refl)).
  destruct rest as [| q more]; [reflexivity |].
  rewrite IH; [| discriminate | intros x Hx; apply Hall; now right].
  simpl. now rewrite Z.ltb_irrefl, Z.eqb_refl.
Qed.

Lemma rows_of_one_year (df : DataFrame) (y : Z) :
  (forall p, In p df -> p.(year) = y) -> rows_of_year df y = df.
Proof.
  intros Hall. unfold rows_of_year. apply forallb_filter_id.
  apply forallb_forall. intros p Hp. apply Z.eqb_eq. now apply Hall.
Qed.

Lemma fold_max_const (ys : list Z) (y : Z) :
  (forall z, In z ys -> z = y) -> fold_left Z.max ys y = y.
Proof.
  induction ys as [| x rest IH]; simpl; intros Hall; [reflexivity |].
  rewrite (Hall x (or_introl eq_refl)), Z.max_id.
  apply IH. intros z Hz. apply Hall. now right.
Qed.

(** X17: on a frame whose rows all lie in one year there is a single annual
    total, so the annual growth and the [cagr] are 0 and the three
    projections for next year coincide: each is that year's revenue
    times 1. *)
Theorem growth_projections_one_year (pow : float -> float -> float)
    (df : DataFrame) (y : Z) :
  df <> [] -> (forall p, In p df -> p.(year) = y) ->
  let g := calculate_growth_projections pow df in
  g.(historical_annual) = [(y, Np.sum (map revenue df))]
  /\ g.(avg_annual_growth) = 0
  /\ g.(cagr) = 0
  /\ g.(projections).(conservative) = Np.sum (map revenue df) * 1
  /\ g.(projections).(base) = Np.sum (map revenue df) * 1
  /\ g.(projections).(optimistic) = Np.sum (map revenue df) * 1.
Proof.
  intros Hne Hall g.
  assert (Hannual : annual_revenue df = [(y, Np.sum (map revenue df))]).
  { unfold annual_revenue. rewrite (group_keys_one_year df y Hne Hall).
    simpl. now rewrite (rows_of_one_year df y Hall). }
  assert (Hlast : last_year_revenue df = Np.sum (map revenue df)).
  { unfold last_year_revenue.
    destruct (map year df) as [| y0 ys] eqn:Hyears.
    - destruct df; [now contradiction Hne | discriminate].
    - assert (Hys : forall z, In z (y0 :: ys) -> z = y).
      { intros z Hz. rewrite <- Hyears in Hz. apply in_map_iff in Hz.
        destruct Hz as [q [<- Hq]]. now apply Hall. }
      rewrite (Hys y0 (or_introl eq_refl)), fold_max_const
        by (intros z Hz; apply Hys; now right).
      now rewrite (rows_of_one_year df y Hall). }
  unfold g, calculate_growth_projections. rewrite Hannual, Hlast.
  cbn. repeat split.
Qed.

(** Two months of 2023 with revenue 1000 and 1250: one annual total of 2250,
    which is each of the three projections. *)
Lemma growth_projections_one_year_witness :
  let g := calculate_growth_projections Sample.pow_whole Sample.two_months in
  g.(cagr) = 0
  /\ g.(projections).(conservative) = 2250
  /\ g.(projections).(optimistic) = 2250.
Proof.
  assert (Hall : forall p, In p Sample.two_months -> p.(year) = 2023%Z).
  { intros p Hp. vm_compute in Hp. destruct Hp as [<- | [<- | []]]; reflexivity. }
  destruct (growth_projections_one_year Sample.pow_whole Sample.two_months 2023
              ltac:(discriminate) Hall) as [_ [_ [Hc [Hlow [_ Hhigh]]]]].
  split; [exact Hc |].
  split; [rewrite Hlow | rewrite Hhigh]; vm_compute; reflexivity.
Defined.

(** ** calculate_quarterly_summary *)

(** The order of the pairs (year, quarter). *)
Lemma key_ltb_lt (a b : Z * Z) :
  key_ltb a b = true
  <-> (fst a < fst b \/ (fst a = fst b /\ snd a < snd b))%Z.
Proof.
  unfold key_ltb.
  rewrite orb_true_iff, andb_true_iff, !Z.ltb_lt, Z.eqb_eq. reflexivity.
Qed.

Lemma key_eqb_eq (a b : Z * Z) : key_eqb a b = true <-> a = b.
Proof.
  unfold key_eqb. rewrite andb_true_iff, !Z.eqb_eq.
  destruct a, b; simpl. split; [intros [-> ->]; reflexivity |].
  intros [= -> ->]. now split.
Qed.

Lemma insert_key2_in (k z : Z * Z) (ks : list (Z * Z)) :
  In z (insert_key2 k ks) <-> z = k \/ In z ks.
Proof.
  induction ks as [| x rest IH]; simpl; [intuition |].
  destruct (key_ltb k x); [simpl; intuition |].
  destruct (key_eqb k x) eqn:Heq.
  - apply key_eqb_eq in Heq. subst x. simpl. intuition.
  - simpl. rewrite IH. intuition.
Qed.

Lemma insert_key2_sorted (k : Z * Z) (ks : list (Z * Z)) :
  StronglySorted (fun a b => key_ltb a b = true) ks ->
  StronglySorted (fun a b => key_ltb a b = true) (insert_key2 k ks).
Proof.
  induction 1 as [| x rest Hsorted IH Hall]; simpl.
  - repeat constructor.
  - destruct (key_ltb k x) eqn:Hlt.
    + constructor; [now constructor |].
      constructor; [exact Hlt |].
      eapply Forall_impl; [| exact Hall]. intros z Hz.
      apply key_ltb_lt in Hlt, Hz. apply key_ltb_lt. lia.
    + destruct (key_eqb k x) eqn:Heq; [now constructor |].
      constructor; [exact IH |].
      apply Forall_forall. intros z Hz.
      apply insert_key2_in in Hz. destruct Hz as [-> | Hz].
      * apply key_ltb_lt.
        assert (Hn : ~ (fst k < fst x \/ (fst k = fst x /\ snd k < snd x))%Z)
          by (rewrite <- key_ltb_lt, Hlt; discriminate).
        assert (Hne : k <> x)
          by (rewrite <- key_eqb_eq, Heq; discriminate).
        destruct k as [k1 k2], x as [x1 x2]. simpl in *.
        assert (k1 <> x1 \/ k2 <> x2)%Z.
        { destruct (Z.eq_dec k1 x1) as [-> | H1]; [| now left].
          right. intros ->. now apply Hne. }
        lia.
      * rewrite Forall_forall in Hall. now apply Hall.
Qed.

Lemma quarter_keys_spec (df : DataFrame) :
  StronglySorted (fun a b => key_ltb a b = true) (quarter_keys df)
  /\ (forall k, In k (quarter_keys df)
                <-> exists p, In p df /\ (p.(year), p.(quarter)) = k).
Proof.
  unfold quarter_keys. induction df as [| p rest [IHs IHin]]; simpl.
  - split; [constructor |]. intros k. split; [intros [] | intros [p [[] _]]].
  - split; [now apply insert_key2_sorted |].
    intros k. rewrite insert_key2_in, IHin. split.
    + intros [-> | [q [Hq Hk]]]; [exists p; auto | exists q; auto].
    + intros [q [[<- | Hq] Hk]]; [now left | right; now exists q].
Qed.

Lemma strongly_sorted_impl {A : Type} (R S : A -> A -> Prop) (l : list A) :
  (forall a b, R a b -> S a b) -> StronglySorted R l -> StronglySorted S l.
Proof.
  intros HRS. induction 1 as [| a rest Hsorted IH Hall]; constructor;
    [exact IH |].
  eapply Forall_impl; [| exact Hall]. intros b. apply HRS.
Qed.

(** X18: the quarterly summary has one row per pair of a year and a quarter
    that occurs in the frame, ordered by the year and then the quarter; in
    each row the five flows are the sums over the rows of its quarter and the
    two margins are computed from the summed flows and rounded to 2 decimals;
    the row is labelled with the year, [" Q"] and
    the quarter, and its year is a year of the annual summary, which in turn
    has no year without a quarterly row. *)
Theorem calculate_quarterly_summary_spec (df : DataFrame) :
  let rows := calculate_quarterly_summary df in
  StronglySorted
    (fun a b => (fst a < fst b \/ (fst a = fst b /\ snd a < snd b))%Z)
    (map (fun r => (r.(q_year), r.(q_quarter))) rows)
  /\ (forall k, In k (map (fun r => (r.(q_year), r.(q_quarter))) rows)
                <-> exists p, In p df /\ (p.(year), p.(quarter)) = k)
  /\ Forall (fun r =>
               let g := rows_of_quarter df (r.(q_year), r.(q_quarter)) in
               g <> []
               /\ (forall p, In p g <-> In p df /\ p.(year) = r.(q_year)
                                        /\ p.(quarter) = r.(q_quarter))
               /\ r.(q_revenue) = Np.sum (map revenue g)
               /\ r.(q_gross_profit) = Np.sum (map gross_profit g)
               /\ r.(q_operating_income) = Np.sum (map operating_income g)
               /\ r.(q_net_income) = Np.sum (map net_income g)
               /\ r.(q_ebitda) = Np.sum (map ebitda g)
               /\ r.(q_gross_margin)
                  = Np.round2 (Np.sum (map gross_profit g)
                               / Np.sum (map revenue g) * 100)
               /\ r.(q_net_margin)
                  = Np.round2 (Np.sum (map net_income g)
                               / Np.sum (map revenue g) * 100)
               /\ r.(q_period)
                  = (str_of_int r.(q_year) ++ " Q"
                     ++ str_of_int r.(q_quarter))%string) rows
  /\ (forall y, In y (map q_year rows)
                <-> In y (map a_year (calculate_annual_summary df))).
Proof.
  intros rows.
  destruct (quarter_keys_spec df) as [Hs Hin].
  assert (Hkeys : map (fun r => (r.(q_year), r.(q_quarter))) rows
                  = quarter_keys df).
  { unfold rows, calculate_quarterly_summary. rewrite map_map. cbn.
    rewrite (map_ext _ (fun k => k)) by (now intros [a b]). apply map_id. }
  assert (Hgroup : forall k p,
             In p (rows_of_quarter df k)
             <-> In p df /\ p.(year) = fst k /\ p.(quarter) = snd k).
  { intros [a b] p. unfold rows_of_quarter.
    rewrite filter_In, key_eqb_eq. cbn [fst snd].
    split; [intros [H [= <- <-]]; auto | intros [H [<- <-]]; auto]. }
  rewrite Hkeys.
  split; [| split; [exact Hin | split]].
  - eapply strongly_sorted_impl; [| exact Hs].
    intros a b Hab. now apply key_ltb_lt.
  - apply Forall_forall. intros r Hr.
    unfold rows, calculate_quarterly_summary in Hr.
    apply in_map_iff in Hr. destruct Hr as [k [<- Hk]].
    cbn [quarterly_row q_year q_quarter q_revenue q_gross_profit
         q_operating_income q_net_income q_ebitda q_gross_margin
         q_net_margin q_period].
    replace (fst k, snd k) with k by (now destruct k).
    split; [| split; [intros p; apply Hgroup | now repeat split]].
    intros Hnil. apply Hin in Hk. destruct Hk as [p [Hp Hpk]].
    assert (Hp' : In p (rows_of_quarter df k))
      by (apply Hgroup; subst k; auto).
    rewrite Hnil in Hp'. exact Hp'.
  - intros y. rewrite annual_summary_years, group_keys_in.
    assert (Hy : map q_year rows = map fst (quarter_keys df))
      by (rewrite <- Hkeys, map_map; reflexivity).
    rewrite Hy, !in_map_iff. split.
    + intros [k [<- Hk]]. apply Hin in Hk. destruct Hk as [p [Hp <-]].
      now exists p.
    + intros [p [<- Hp]]. exists (p.(year), p.(quarter)).
      split; [reflexivity |]. apply Hin. now exists p.
Qed.

(** ** calculate_rolling_averages *)

Lemma rolling_mean_length (window : nat) (xs : list float) :
  List.length (rolling_mean window xs) = List.length xs.
Proof. unfold rolling_mean. now rewrite length_map, length_seq. Qed.

Lemma rolling_mean_head (window : nat) (xs : list float) (i : nat) :
  (i + 1 < window)%nat -> (i < List.length xs)%nat ->
  nth_error (rolling_mean window xs) i = Some nan.
Proof.
  intros Hw Hi. unfold rolling_mean.
  rewrite nth_error_map_seq by exact Hi.
  apply Nat.ltb_lt in Hw. now rewrite Hw.
Qed.

Lemma nth_error_combine {A B : Type} (xs : list A) (ys : list B) (i : nat)
    (x : A) (y : B) :
  nth_error xs i = Some x -> nth_error ys i = Some y ->
  nth_error (combine xs ys) i = Some (x, y).
Proof.
  revert xs ys. induction i as [| i IH]; intros [| x' xs] [| y' ys]; simpl;
    try discriminate.
  - now intros [= ->] [= ->].
  - apply IH.
Qed.

(** X19: the frame with the moving averages has the rows of the frame, one
    for one; in the first [window - 1] rows the three averages are NaN. *)
Theorem calculate_rolling_averages_shape (df : DataFrame) (window : nat) :
  map r_period (calculate_rolling_averages df window) = df
  /\ (forall i, (i + 1 < window)%nat -> (i < List.length df)%nat ->
        exists row,
          nth_error (calculate_rolling_averages df window) i = Some row
          /\ row.(revenue_ma) = nan
          /\ row.(net_income_ma) = nan
          /\ row.(gross_margin_ma) = nan).
Proof.
  unfold calculate_rolling_averages. split.
  - rewrite map_map. cbn [r_period].
    rewrite <- (map_map fst (fun p : Period => p)), map_id.
    apply map_fst_combine_same.
    rewrite !length_combine, !rolling_mean_length, !length_map. lia.
  - intros i Hw Hi.
    destruct (nth_error_some df i Hi) as [p Hp].
    eexists. split.
    + rewrite nth_error_map.
      rewrite (nth_error_combine _ _ i p (nan, (nan, nan)) Hp).
      * reflexivity.
      * repeat apply nth_error_combine;
          apply rolling_mean_head; rewrite ?length_map; assumption.
    + repeat split.
Qed.

(** With the default window of 3 the first two rows carry no average; the
    third carries the mean of the first three revenues. *)
Lemma calculate_rolling_averages_shape_witness :
  map revenue_ma
      (calculate_rolling_averages
         (DataLoader.load_financial_data Sample.shuffled) 3)
  = [nan; nan; 200].
Proof.
  destruct (calculate_rolling_averages_shape
              (DataLoader.load_financial_data Sample.shuffled) 3) as [_ Hhead].
  destruct (Hhead 0%nat) as [row [Hrow _]]; [lia | simpl; lia |].
  vm_compute. reflexivity.
Defined.
